(** * networksecurity.components.model_trainer

    A shallow embedding of [model_trainer.py]: the module-level credential
    check, [ModelTrainer.train_model], [ModelTrainer.track_mlflow] and
    [ModelTrainer.initiate_model_trainer], with the properties the
    specification states about them.

    Conventions.
    - Python dictionaries whose iteration order matters ([models], [params],
      the evaluation report) are association lists in insertion order;
      [os.environ] and the file system, where only lookups matter, are
      [gmap]s keyed by strings.
    - Python floats are only compared and copied by this file, never
      computed with; they are the rationals [Q] (every finite float is one,
      and [>] and [==] on finite floats agree with the order of [Q]).
    - Code that can raise lives in a state-and-exception monad: an exception
      leaves the effects performed so far in place, as in Python.
    - Every call that leaves this file is a {e call site}; a fault oracle
      decides, per site, whether the collaborator raises there. *)

From Stdlib Require Import QArith ZArith List String Bool Lia.
From stdpp Require Import gmap strings list fin_maps.
Import ListNotations.

Local Open Scope string_scope.
Local Open Scope list_scope.

(** ** Python values *)

Definition float : Type := Q.

(** [a > b] and [a == b] on floats. *)
Definition float_gt (a b : float) : bool := negb (Qle_bool a b).
Definition float_eq (a b : float) : bool := Qeq_bool a b.

Inductive pyval : Type :=
| PStr (s : string)
| PInt (z : Z)
| PFloat (q : float).

(** The exception classes this file can meet.  [KeyboardInterrupt] and
    [SystemExit] derive from [BaseException] only, so [except Exception]
    does not catch them. *)
Inductive exc_class : Type :=
| EnvironmentError
| TypeError
| ValueError
| KeyError
| IndexError
| AttributeError
| FileNotFoundError
| OtherException (name : string)
| KeyboardInterrupt
| SystemExit.

(** The [sys] module object handed to [NetworkSecurityException]. *)
Inductive sys_module : Type := sys.

(** Modelled from the spec: [networksecurity.exception.exception] is not
    part of the sources at hand.  The spec calls it the single
    domain-specific error type that wraps the originating exception together
    with the invocation context; the constructor is applied as
    [NetworkSecurityException(e, sys)]. *)
Inductive exn : Type :=
| PyErr (cls : exc_class) (msg : string)
| NetworkSecurityException (error_message : exn) (error_details : sys_module).

(** [isinstance(e, Exception)]. *)
Definition is_Exception (e : exn) : bool :=
  match e with
  | PyErr KeyboardInterrupt _ | PyErr SystemExit _ => false
  | PyErr _ _ => true
  | NetworkSecurityException _ _ => true
  end.

(** ** The state-and-exception monad *)

Inductive result (A : Type) : Type :=
| Ok (a : A)
| Raise (e : exn).
Arguments Ok {A} a.
Arguments Raise {A} e.

Definition M (S A : Type) : Type := S -> result A * S.

Definition ret {S A} (a : A) : M S A := fun s => (Ok a, s).
Definition raise {S A} (e : exn) : M S A := fun s => (Raise e, s).
Definition bind {S A B} (m : M S A) (k : A -> M S B) : M S B :=
  fun s =>
    match m s with
    | (Ok a, s') => k a s'
    | (Raise e, s') => (Raise e, s')
    end.

Notation "'let*' x ':=' m 'in' k" := (bind m (fun x => k))
  (at level 10, x pattern, m at level 100, k at level 200).
Notation "m ';;;' k" := (bind m (fun _ => k))
  (at level 100, k at level 200, right associativity).

(** [try: body  except Exception as e: raise handler(e)]. *)
Definition try_except_Exception {S A} (body : M S A) (handler : exn -> exn) : M S A :=
  fun s =>
    match body s with
    | (Ok a, s') => (Ok a, s')
    | (Raise e, s') =>
        if is_Exception e then (Raise (handler e), s') else (Raise e, s')
    end.

(** ** Arrays *)

(** A two-dimensional [numpy] array: its column count (kept apart, because
    an array may have columns and no rows) and its rows. *)
Record ndarray : Type := {
  ncols : nat;
  rows : list (list float)
}.

Definition well_shaped (a : ndarray) : Prop :=
  Forall (fun r => length r = ncols a) (rows a).

Definition vector : Type := list float.

(** ** Entities *)

(** Modelled from the spec: the metric bundle {f1, precision, recall} of
    [networksecurity.entity.artifact_entity], with the field names
    [track_mlflow] reads. *)
Record ClassificationMetricArtifact : Type := {
  f1_score : float;
  precision_score : float;
  recall_score : float
}.

(** Modelled from the spec: the trained artifact record, with the keyword
    arguments [train_model] builds it from. *)
Record ModelTrainerArtifact : Type := {
  trained_model_file_path : string;
  train_metric_artifact : ClassificationMetricArtifact;
  test_metric_artifact : ClassificationMetricArtifact
}.

(** Modelled from the spec: the configuration value giving the output path
    of the trained model bundle. *)
Record ModelTrainerConfig : Type := {
  config_trained_model_file_path : string
}.

(** Modelled from the spec: the upstream artifact, with the three paths this
    file reads from it. *)
Record DataTransformationArtifact : Type := {
  transformed_object_file_path : string;
  transformed_train_file_path : string;
  transformed_test_file_path : string
}.

Inductive sklearn_class : Type :=
| RandomForestClassifier
| DecisionTreeClassifier
| GradientBoostingClassifier
| LogisticRegression
| AdaBoostClassifier.

(** An estimator object: its class, the keyword arguments it carries, and
    what fitting has stored in it ([None] before any fit). *)
Record estimator : Type := {
  est_class : sklearn_class;
  est_kwargs : list (string * pyval);
  est_learned : option (list float)
}.

(** Objects that are serialized to, or loaded from, files. *)
Inductive pyobj : Type :=
| ONdarray (a : ndarray)
| OEstimator (e : estimator)
| OOther (repr : string)
| NetworkModel (preprocessor : pyobj) (model : estimator).

(** The trainer object; [best_model_name] is the attribute [train_model]
    creates, absent on a fresh object. *)
Record ModelTrainer : Type := {
  model_trainer_config : ModelTrainerConfig;
  data_transformation_artifact : DataTransformationArtifact;
  best_model_name : option string
}.

(** ** The world outside the trainer *)

Inductive run_status : Type := FINISHED | FAILED.

(** What the tracking service receives. *)
Inductive mlflow_event : Type :=
| SetRegistryUri (uri : option string)
| StartRun (run_name : string)
| SetTag (key value : string)
| LogMetric (key : string) (value : float)
| LogModel (model : estimator) (artifact_path : string)
           (registered_model_name : option string)
| EndRun (status : run_status).

(** The places where control leaves this file, in program order. *)
Inductive site : Type :=
| at_load_train
| at_load_test
| at_evaluate_models
| at_predict_train
| at_score_train
| at_predict_test
| at_score_test
| at_set_registry_uri
| at_get_tracking_uri
| at_urlparse
| at_start_run
| at_set_tag_model_name
| at_set_tag_author
| at_log_train_f1
| at_log_train_precision
| at_log_train_recall
| at_log_test_f1
| at_log_test_precision
| at_log_test_recall
| at_log_model
| at_end_run
| at_load_object
| at_makedirs
| at_save_network_model
| at_save_best_model.

(** What the program acts on.  [environ] is [os.environ], and
    [environ_writes] the assignments made to it, in order.  [files] is
    what the paths hold that are read and written through [main_utils],
    and [serialized] the calls of [save_object] that have completed, in
    order, each with its path and its object.  [directories] are
    directories that are there, [tracking] is what the tracking client has
    been sent, and [calls] the call sites passed. *)
Record world : Type := {
  environ : gmap string string;
  environ_writes : list (string * string);
  files : gmap string pyobj;
  serialized : list (string * pyobj);
  directories : gset string;
  tracking : list mlflow_event;
  calls : list site
}.

Definition set_environ (f : gmap string string -> gmap string string) (w : world) : world :=
  {| environ := f (environ w); environ_writes := environ_writes w;
     files := files w; serialized := serialized w; directories := directories w;
     tracking := tracking w; calls := calls w |}.

Definition record_write (k v : string) (w : world) : world :=
  {| environ := <[k := v]> (environ w);
     environ_writes := environ_writes w ++ [(k, v)];
     files := files w; serialized := serialized w; directories := directories w;
     tracking := tracking w; calls := calls w |}.

(** A serialization that has completed: the path then reads as the object,
    and the call is recorded with its two arguments. *)
Definition record_serialization (file_path : string) (obj : pyobj) (w : world) : world :=
  {| environ := environ w; environ_writes := environ_writes w;
     files := <[file_path := obj]> (files w);
     serialized := serialized w ++ [(file_path, obj)];
     directories := directories w;
     tracking := tracking w; calls := calls w |}.

Definition add_directory (d : string) (w : world) : world :=
  {| environ := environ w; environ_writes := environ_writes w;
     files := files w; serialized := serialized w;
     directories := {[d]} ∪ directories w;
     tracking := tracking w; calls := calls w |}.

Definition send (ev : mlflow_event) (w : world) : world :=
  {| environ := environ w; environ_writes := environ_writes w;
     files := files w; serialized := serialized w; directories := directories w;
     tracking := tracking w ++ [ev]; calls := calls w |}.

Definition enter (s : site) (w : world) : world :=
  {| environ := environ w; environ_writes := environ_writes w;
     files := files w; serialized := serialized w; directories := directories w;
     tracking := tracking w; calls := calls w ++ [s] |}.

(** ** Collaborators *)

Definition grid : Type := list (string * list pyval).

(** Everything this file calls and does not define.  [fault] says, for each
    call site, whether the collaborator raises there and what; the other
    fields say what a call that does not raise computes. *)
Class Collaborators : Type := {
  (** [load_dotenv()] of python-dotenv: some update of the process
      environment from a [.env] file. *)
  load_dotenv : gmap string string -> gmap string string;
  fault : site -> option exn;
  (** What [evaluate_models] does with one candidate: search the grid, fit,
      and score on the test data; the fitted estimator and its score. *)
  fit_and_score :
    estimator -> grid -> ndarray -> vector -> ndarray -> vector -> estimator * float;
  (** [model.predict(X)]. *)
  sk_predict : estimator -> ndarray -> vector;
  (** [get_classification_score(y_true, y_pred)]. *)
  get_classification_score : vector -> vector -> ClassificationMetricArtifact;
  (** [mlflow.get_tracking_uri()]. *)
  get_tracking_uri : world -> string;
  (** [urlparse(url).scheme]. *)
  urlparse_scheme : string -> string;
  (** [os.path.dirname(path)]. *)
  os_path_dirname : string -> string
}.

(** ** Module level: credentials *)

(** A credential that is set, and set to something. *)
Definition usable (env : gmap string string) (k : string) : Prop :=
  exists v, env !! k = Some v /\ v <> "".


Definition MLFLOW_TRACKING_URI : string := "MLFLOW_TRACKING_URI".
Definition MLFLOW_TRACKING_USERNAME : string := "MLFLOW_TRACKING_USERNAME".
Definition MLFLOW_TRACKING_PASSWORD : string := "MLFLOW_TRACKING_PASSWORD".

Definition credential_names : list string :=
  [MLFLOW_TRACKING_URI; MLFLOW_TRACKING_USERNAME; MLFLOW_TRACKING_PASSWORD].

(** [os.getenv(k)]: [None] when the variable is not set. *)
Definition getenv (k : string) : M world (option string) :=
  fun w => (Ok (environ w !! k), w).

(** [os.environ[k] = v]; a value that is not a string is refused. *)
Definition environ_setitem (k : string) (v : option string) : M world unit :=
  match v with
  | Some s => fun w => (Ok tt, record_write k s w)
  | None => raise (PyErr TypeError "str expected, not NoneType")
  end.

(** Truth value of what [os.getenv] returns: [None] and the empty string
    are false. *)
Definition truthy (v : option string) : bool :=
  match v with
  | None => false
  | Some s => negb (String.eqb s "")
  end.

(** [all(iterable)]. *)
Definition py_all (l : list bool) : bool := forallb (fun b => b) l.

Definition missing_credentials_message : string :=
  "Missing one or more required MLFLOW environment variables in your .env file.".

(** Lines 24 to 35: what importing the module executes before the class
    statement. *)
Definition module_load `{Collaborators} : M world unit :=
  (fun w => (Ok tt, set_environ load_dotenv w)) ;;;
  let* mlflow_uri := getenv MLFLOW_TRACKING_URI in
  let* mlflow_user := getenv MLFLOW_TRACKING_USERNAME in
  let* mlflow_pass := getenv MLFLOW_TRACKING_PASSWORD in
  if negb (py_all [truthy mlflow_uri; truthy mlflow_user; truthy mlflow_pass])
  then raise (PyErr EnvironmentError missing_credentials_message)
  else
    environ_setitem MLFLOW_TRACKING_URI mlflow_uri ;;;
    environ_setitem MLFLOW_TRACKING_USERNAME mlflow_user ;;;
    environ_setitem MLFLOW_TRACKING_PASSWORD mlflow_pass.

(** A program that uses the trainer has to import the module first: the
    class exists only once the module body has run to its end. *)
Definition import_then `{Collaborators} {A} (program : M world A) : M world A :=
  module_load ;;; program.

(** ** Dictionaries in insertion order, and the list built-ins used *)

Definition dict (V : Type) : Type := list (string * V).

Definition dict_keys {V} (d : dict V) : list string := map fst d.
Definition dict_values {V} (d : dict V) : list V := map snd d.

(** [d[k]]. *)
Fixpoint dict_getitem {V} (d : dict V) (k : string) : result V :=
  match d with
  | [] => Raise (PyErr KeyError k)
  | (k', v) :: rest => if String.eqb k' k then Ok v else dict_getitem rest k
  end.

(** [max(iterable)]: the running maximum is replaced only by an item that
    is greater, so of several equal maxima the first one is kept. *)
Definition py_max (l : list float) : result float :=
  match l with
  | [] => Raise (PyErr ValueError "max() arg is an empty sequence")
  | x :: rest => Ok (fold_left (fun m v => if float_gt v m then v else m) rest x)
  end.

(** [l.index(x)]: the position of the first item equal to [x]. *)
Fixpoint list_index (l : list float) (x : float) : result nat :=
  match l with
  | [] => Raise (PyErr ValueError "x is not in list")
  | y :: rest =>
      if float_eq y x then Ok 0%nat
      else match list_index rest x with
           | Ok i => Ok (S i)
           | Raise e => Raise e
           end
  end.

(** [l[i]] for a non-negative [i]. *)
Definition list_getitem {A} (l : list A) (i : nat) : result A :=
  match nth_error l i with
  | Some a => Ok a
  | None => Raise (PyErr IndexError "list index out of range")
  end.

(** A computation that touches nothing, from its outcome. *)
Definition pure {S A} (r : result A) : M S A := fun s => (r, s).

(** ** The candidate models and their grids (lines 48 to 73) *)

Definition new_estimator (c : sklearn_class) (kwargs : list (string * pyval)) : estimator :=
  {| est_class := c; est_kwargs := kwargs; est_learned := None |}.

Definition models : dict estimator :=
  [ ("Random Forest", new_estimator RandomForestClassifier [("verbose", PInt 1)]);
    ("Decision Tree", new_estimator DecisionTreeClassifier []);
    ("Gradient Boosting", new_estimator GradientBoostingClassifier [("verbose", PInt 1)]);
    ("Logistic Regression", new_estimator LogisticRegression [("verbose", PInt 1)]);
    ("AdaBoost", new_estimator AdaBoostClassifier []) ].

Definition params : dict grid :=
  [ ("Decision Tree",
      [ ("criterion", [PStr "gini"; PStr "entropy"; PStr "log_loss"]) ]);
    ("Random Forest",
      [ ("n_estimators", [PInt 8; PInt 16; PInt 32; PInt 128; PInt 256]) ]);
    ("Gradient Boosting",
      [ ("learning_rate", [PFloat (1 # 10); PFloat (1 # 100); PFloat (5 # 100); PFloat (1 # 1000)]);
        ("subsample", [PFloat (6 # 10); PFloat (7 # 10); PFloat (75 # 100); PFloat (85 # 100); PFloat (9 # 10)]);
        ("n_estimators", [PInt 8; PInt 16; PInt 32; PInt 64; PInt 128; PInt 256]) ]);
    ("Logistic Regression", []);
    ("AdaBoost",
      [ ("learning_rate", [PFloat (1 # 10); PFloat (1 # 100); PFloat (1 # 1000)]);
        ("n_estimators", [PInt 8; PInt 16; PInt 32; PInt 64; PInt 128; PInt 256]) ]) ].

(** ** Calls that leave this file *)

Definition state : Type := ModelTrainer * world.

(** A call at site [s]: the call is recorded, then the collaborator either
    raises what the fault oracle says or does its work. *)
Definition external `{Collaborators} {A} (s : site) (work : M world A) : M state A :=
  fun '(self, w) =>
    match fault s with
    | Some e => (Raise e, (self, enter s w))
    | None => let '(r, w') := work (enter s w) in (r, (self, w'))
    end.

(** What touches the world only, run from inside a method. *)
Definition in_world {A} (m : M world A) : M state A :=
  fun '(self, w) => let '(r, w') := m w in (r, (self, w')).

Definition get_self : M state ModelTrainer := fun st => (Ok (fst st), st).

(** The trainer object once [best_model_name] is assigned. *)
Definition named (self : ModelTrainer) (name : string) : ModelTrainer :=
  {| model_trainer_config := model_trainer_config self;
     data_transformation_artifact := data_transformation_artifact self;
     best_model_name := Some name |}.

(** [self.best_model_name = name]. *)
Definition set_best_model_name (name : string) : M state unit :=
  fun '(self, w) => (Ok tt, (named self name, w)).

(** [self.best_model_name]. *)
Definition get_best_model_name : M state string :=
  fun st =>
    match best_model_name (fst st) with
    | Some name => (Ok name, st)
    | None =>
        (Raise (PyErr AttributeError
                  "'ModelTrainer' object has no attribute 'best_model_name'"), st)
    end.

(** Modelled from the spec: [load_numpy_array_data] of
    [networksecurity.utils.main_utils.utils] is not part of the sources at
    hand; it loads the numeric array stored at a file location. *)
Definition load_numpy_array_data (file_path : string) : M world ndarray :=
  fun w =>
    match files w !! file_path with
    | Some (ONdarray a) => (Ok a, w)
    | Some _ => (Raise (PyErr ValueError file_path), w)
    | None => (Raise (PyErr FileNotFoundError file_path), w)
    end.

(** Modelled from the spec: [load_object] of the same module, the inverse
    of the object serializer. *)
Definition load_object (file_path : string) : M world pyobj :=
  fun w =>
    match files w !! file_path with
    | Some o => (Ok o, w)
    | None => (Raise (PyErr FileNotFoundError file_path), w)
    end.

(** Modelled from the spec: [save_object] of the same module, a direct
    serialization of the object to the path.  This is the call that
    completes; a call that fails raises at its call site and is not recorded
    as a serialization, and what it leaves at the path is not modelled.
    [files] is keyed by the path strings as they are passed: that two
    different strings may name one file is not modelled either, so nothing
    is concluded from two path strings being different. *)
Definition save_object (file_path : string) (obj : pyobj) : M world unit :=
  fun w => (Ok tt, record_serialization file_path obj w).

(** [os.makedirs(d, exist_ok=True)]: an existing directory is no error, the
    empty path is.  [directories] records the directories this file has
    asked for; the intermediate directories that [os.makedirs] creates on
    the way are not recorded. *)
Definition makedirs_exist_ok (d : string) : M world unit :=
  fun w =>
    if String.eqb d ""
    then (Raise (PyErr FileNotFoundError d), w)
    else (Ok tt, add_directory d w).

(** Modelled from the spec: [evaluate_models] of the same module.  For each
    candidate, in the iteration order of [models], it looks up the
    candidate's grid, fits it and records its test score under the
    candidate's name; the estimators in [models] are fitted in place, so the
    fitted candidates come back with the report. *)
Fixpoint evaluate_models `{Collaborators}
    (X_train : ndarray) (y_train : vector) (X_test : ndarray) (y_test : vector)
    (models : dict estimator) (param : dict grid)
  : result (dict estimator * dict float) :=
  match models with
  | [] => Ok ([], [])
  | (name, model) :: rest =>
      match dict_getitem param name with
      | Raise e => Raise e
      | Ok para =>
          let '(fitted, test_model_score) :=
            fit_and_score model para X_train y_train X_test y_test in
          match evaluate_models X_train y_train X_test y_test rest param with
          | Raise e => Raise e
          | Ok (fitted_rest, report) =>
              Ok ((name, fitted) :: fitted_rest, (name, test_model_score) :: report)
          end
      end
  end.

(** ** [ModelTrainer.track_mlflow] (lines 113 to 136) *)

(** A call of the mlflow client: the event reaches the tracking service.
    Where the service keeps what it receives is its own affair: a local
    file store is a directory of the service, and what it holds is part of
    neither [files] nor [directories]. *)
Definition mlflow_call `{Collaborators} (s : site) (ev : mlflow_event) : M state unit :=
  external s (fun w => (Ok tt, send ev w)).

(** [with mlflow.start_run(run_name=...): body].  The run is ended when the
    block is left, as finished or as failed, and an exception of the block
    goes on after that. *)
Definition with_start_run `{Collaborators} (run_name : string) (body : M state unit)
  : M state unit :=
  mlflow_call at_start_run (StartRun run_name) ;;;
  fun st =>
    match body st with
    | (Ok _, st') => mlflow_call at_end_run (EndRun FINISHED) st'
    | (Raise e, st') =>
        match mlflow_call at_end_run (EndRun FAILED) st' with
        | (Ok _, st'') => (Raise e, st'')
        | (Raise e', st'') => (Raise e', st'')
        end
    end.

Definition track_mlflow `{Collaborators} (best_model : estimator)
    (train_metrics test_metrics : ClassificationMetricArtifact) : M state unit :=
  let* uri := in_world (getenv MLFLOW_TRACKING_URI) in
  mlflow_call at_set_registry_uri (SetRegistryUri uri) ;;;
  let* tracking_uri :=
    external at_get_tracking_uri (fun w => (Ok (get_tracking_uri w), w)) in
  let* tracking_url_type_store :=
    external at_urlparse (ret (urlparse_scheme tracking_uri)) in
  let* run_owner := get_best_model_name in
  with_start_run (run_owner +:+ "_experiment")
    (let* tagged := get_best_model_name in
     mlflow_call at_set_tag_model_name (SetTag "model_name" tagged) ;;;
     mlflow_call at_set_tag_author (SetTag "author" "Utsav") ;;;
     mlflow_call at_log_train_f1 (LogMetric "train_f1_score" (f1_score train_metrics)) ;;;
     mlflow_call at_log_train_precision
       (LogMetric "train_precision" (precision_score train_metrics)) ;;;
     mlflow_call at_log_train_recall (LogMetric "train_recall" (recall_score train_metrics)) ;;;
     mlflow_call at_log_test_f1 (LogMetric "test_f1_score" (f1_score test_metrics)) ;;;
     mlflow_call at_log_test_precision
       (LogMetric "test_precision" (precision_score test_metrics)) ;;;
     mlflow_call at_log_test_recall (LogMetric "test_recall" (recall_score test_metrics)) ;;;
     if negb (String.eqb tracking_url_type_store "file")
     then
       let* registered := get_best_model_name in
       mlflow_call at_log_model (LogModel best_model "model" (Some registered))
     else
       mlflow_call at_log_model (LogModel best_model "model" None)).

(** ** [ModelTrainer.train_model] (lines 47 to 111) *)

Definition final_model_path : string := "final_model/model.pkl".

(** Lines 81 and 82: the best score, then the name at the position where
    that score first occurs among the report's values. *)
Definition select_best (model_report : dict float) : result (float * string) :=
  match py_max (dict_values model_report) with
  | Raise e => Raise e
  | Ok best_model_score =>
      match list_index (dict_values model_report) best_model_score with
      | Raise e => Raise e
      | Ok i =>
          match list_getitem (dict_keys model_report) i with
          | Raise e => Raise e
          | Ok best_model_name => Ok (best_model_score, best_model_name)
          end
      end
  end.

(** Lines 97 to 111, the spec's persist-and-package: load the preprocessor,
    make the output directory, serialize the bundle and the bare model,
    build the artifact. *)
Definition persist_and_package `{Collaborators} (best_model : estimator)
    (classification_train_metric classification_test_metric : ClassificationMetricArtifact)
  : M state ModelTrainerArtifact :=
  let* self := get_self in
  let* preprocessor :=
    external at_load_object
      (load_object (transformed_object_file_path (data_transformation_artifact self))) in
  let model_dir_path :=
    os_path_dirname (config_trained_model_file_path (model_trainer_config self)) in
  external at_makedirs (makedirs_exist_ok model_dir_path) ;;;
  let network_model := NetworkModel preprocessor best_model in
  external at_save_network_model
    (save_object (config_trained_model_file_path (model_trainer_config self)) network_model) ;;;
  external at_save_best_model (save_object final_model_path (OEstimator best_model)) ;;;
  ret {| trained_model_file_path :=
           config_trained_model_file_path (model_trainer_config self);
         train_metric_artifact := classification_train_metric;
         test_metric_artifact := classification_test_metric |}.

(** The method, with the call of [track_mlflow] on line 95 as a parameter so
    that the run with and the run without tracking can be compared. *)
Definition train_model_with `{Collaborators}
    (tracker :
       estimator -> ClassificationMetricArtifact -> ClassificationMetricArtifact ->
       M state unit)
    (X_train : ndarray) (y_train : vector) (X_test : ndarray) (y_test : vector)
  : M state ModelTrainerArtifact :=
  let* (fitted_models, model_report) :=
    external at_evaluate_models
      (pure (evaluate_models X_train y_train X_test y_test models params)) in
  let* (best_model_score, chosen) := pure (select_best model_report) in
  set_best_model_name chosen ;;;
  let* best_model := pure (dict_getitem fitted_models chosen) in
  let* y_train_pred := external at_predict_train (ret (sk_predict best_model X_train)) in
  let* classification_train_metric :=
    external at_score_train (ret (get_classification_score y_train y_train_pred)) in
  let* y_test_pred := external at_predict_test (ret (sk_predict best_model X_test)) in
  let* classification_test_metric :=
    external at_score_test (ret (get_classification_score y_test y_test_pred)) in
  tracker best_model classification_train_metric classification_test_metric ;;;
  persist_and_package best_model classification_train_metric classification_test_metric.

Definition train_model `{Collaborators} :
  ndarray -> vector -> ndarray -> vector -> M state ModelTrainerArtifact :=
  train_model_with track_mlflow.

(** ** [ModelTrainer.initiate_model_trainer] (lines 138 to 151) *)

(** [a[:, :-1]]: every row up to, and without, its last column. *)
Definition columns_before_last (a : ndarray) : ndarray :=
  {| ncols := ncols a - 1; rows := map (firstn (ncols a - 1)) (rows a) |}.

(** [a[:, -1]]: the last column; an array without columns has none. *)
Definition column_last (a : ndarray) : result vector :=
  if (ncols a =? 0)%nat
  then Raise (PyErr IndexError "index -1 is out of bounds for axis 1 with size 0")
  else Ok (map (fun r => nth (ncols a - 1) r 0%Q) (rows a)).

(** The body of the [try] block. *)
Definition initiate_model_trainer_body `{Collaborators} : M state ModelTrainerArtifact :=
  let* self := get_self in
  let train_file_path := transformed_train_file_path (data_transformation_artifact self) in
  let test_file_path := transformed_test_file_path (data_transformation_artifact self) in
  let* train_arr := external at_load_train (load_numpy_array_data train_file_path) in
  let* test_arr := external at_load_test (load_numpy_array_data test_file_path) in
  let X_train := columns_before_last train_arr in
  let* y_train := pure (column_last train_arr) in
  let X_test := columns_before_last test_arr in
  let* y_test := pure (column_last test_arr) in
  train_model X_train y_train X_test y_test.

Definition initiate_model_trainer `{Collaborators} : M state ModelTrainerArtifact :=
  try_except_Exception initiate_model_trainer_body
    (fun e => NetworkSecurityException e sys).

(** The call sites in the order in which a run that never fails passes
    them. *)
Definition pipeline : list site :=
  [ at_load_train; at_load_test; at_evaluate_models;
    at_predict_train; at_score_train; at_predict_test; at_score_test;
    at_set_registry_uri; at_get_tracking_uri; at_urlparse; at_start_run;
    at_set_tag_model_name; at_set_tag_author;
    at_log_train_f1; at_log_train_precision; at_log_train_recall;
    at_log_test_f1; at_log_test_precision; at_log_test_recall;
    at_log_model; at_end_run;
    at_load_object; at_makedirs; at_save_network_model; at_save_best_model ].

(** The sites of [track_mlflow], of the block under [start_run], and of
    persist-and-package. *)
Definition run_block_sites : list site :=
  [ at_set_tag_model_name; at_set_tag_author;
    at_log_train_f1; at_log_train_precision; at_log_train_recall;
    at_log_test_f1; at_log_test_precision; at_log_test_recall;
    at_log_model ].

Definition track_sites : list site :=
  [at_set_registry_uri; at_get_tracking_uri; at_urlparse; at_start_run]
  ++ run_block_sites ++ [at_end_run].

Definition persist_sites : list site :=
  [at_load_object; at_makedirs; at_save_network_model; at_save_best_model].

(** The scheme [track_mlflow] branches on when it starts in world [w]. *)
Definition tracking_url_type_store `{Collaborators} (w : world) : string :=
  urlparse_scheme
    (get_tracking_uri
       (enter at_get_tracking_uri
          (send (SetRegistryUri (environ w !! MLFLOW_TRACKING_URI))
             (enter at_set_registry_uri w)))).

(** Kinds of tracking events. *)
Definition is_run_start (ev : mlflow_event) : bool :=
  match ev with StartRun _ => true | _ => false end.
Definition is_tag (ev : mlflow_event) : bool :=
  match ev with SetTag _ _ => true | _ => false end.
Definition is_metric (ev : mlflow_event) : bool :=
  match ev with LogMetric _ _ => true | _ => false end.
Definition is_model (ev : mlflow_event) : bool :=
  match ev with LogModel _ _ _ => true | _ => false end.

(** The name [log_model] registers the model under, by the scheme. *)
Definition registered_name (scheme name : string) : option string :=
  if negb (String.eqb scheme "file") then Some name else None.

(** What a run of [track_mlflow] that returns has sent to the service. *)
Definition track_events (uri : option string) (scheme name : string)
    (best_model : estimator)
    (train_metrics test_metrics : ClassificationMetricArtifact) : list mlflow_event :=
  [ SetRegistryUri uri;
    StartRun (name +:+ "_experiment");
    SetTag "model_name" name;
    SetTag "author" "Utsav";
    LogMetric "train_f1_score" (f1_score train_metrics);
    LogMetric "train_precision" (precision_score train_metrics);
    LogMetric "train_recall" (recall_score train_metrics);
    LogMetric "test_f1_score" (f1_score test_metrics);
    LogMetric "test_precision" (precision_score test_metrics);
    LogMetric "test_recall" (recall_score test_metrics);
    LogModel best_model "model" (registered_name scheme name);
    EndRun FINISHED ].

(** Two worlds that differ at most in what the tracking service has
    received and in the record of calls. *)
Definition same_outside_tracking (w w' : world) : Prop :=
  environ w' = environ w
  /\ environ_writes w' = environ_writes w
  /\ files w' = files w
  /\ directories w' = directories w.

(** No site faults. *)
Definition unfaulted `{Collaborators} (sites : list site) : Prop :=
  Forall (fun s => fault s = None) sites.

(** Entry [i] of the report carries [name] with the top score, no entry
    scores higher, and no earlier entry scores as high. *)
Definition first_maximum (report : dict float) (i : nat) (name : string) (score : float)
  : Prop :=
  (exists s, nth_error report i = Some (name, s) /\ Qeq s score)
  /\ (forall n s, In (n, s) report -> Qle s score)
  /\ (forall j n s, nth_error report j = Some (n, s) -> Qeq s score -> (i <= j)%nat).

(** A method that, whatever its outcome, leaves the trainer object, the
    environment, the files and the directories as they were. *)
Definition keeps_trainer_and_files {A} (m : M state A) : Prop :=
  forall self w r self' w',
    m (self, w) = (r, (self', w')) -> self' = self /\ same_outside_tracking w w'.

(** A method step that, whatever its outcome, does not assign to the
    trainer object. *)
Definition keeps_self {A} (m : M state A) : Prop :=
  forall self w r self' w', m (self, w) = (r, (self', w')) -> self' = self.

(** The world when [train_model] reaches line 95, started in [w]. *)
Definition before_tracking (w : world) : world :=
  enter at_score_test
    (enter at_predict_test
       (enter at_score_train (enter at_predict_train (enter at_evaluate_models w)))).

(** A row of an array put together again from its features and its label. *)
Definition with_label (features : list float) (label : float) : list float :=
  features ++ [label].

(** An outcome that, when it is an exception, is a built-in error that
    derives from [Exception]: what the operations of this file raise. *)
Definition raises_own_errors_only {A} (r : result A) : Prop :=
  forall e, r = Raise e -> exists cls msg, e = PyErr cls msg /\ is_Exception e = true.

(** Where an exception that leaves a method comes from: a collaborator
    raised it at one of the sites passed, or an operation of this file
    (a lookup, an index, [max]) raised a built-in error. *)
Definition caused_by `{Collaborators} (passed : list site) (e : exn) : Prop :=
  (exists s, In s passed /\ fault s = Some e)
  \/ (exists cls msg, e = PyErr cls msg /\ is_Exception e = true).

(** A method that passes call sites of [sites] only, each at most once and
    in this order; that has passed them all, none faulting, when it
    returns; and that raises only what [caused_by] allows. *)
Definition visits `{Collaborators} {A} (sites : list site) (m : M state A) : Prop :=
  forall st r st',
    m st = (r, st') ->
    exists passed,
      calls (snd st') = calls (snd st) ++ passed
      /\ sublist passed sites
      /\ match r with
         | Ok _ => passed = sites /\ unfaulted sites
         | Raise e => caused_by passed e
         end.

(** The array [a] is [X] with [y] appended as its last column. *)
Definition splits_into (a X : ndarray) (y : vector) : Prop :=
  rows a = zip_with with_label (rows X) y
  /\ length (rows X) = length y
  /\ ncols X = (ncols a - 1)%nat
  /\ well_shaped X.


(** ** [ModelTrainer.__init__] (lines 40 to 45) *)

(** The two assignments sit in a [try] block whose handler wraps what the
    block raises; the attribute [best_model_name] does not exist yet. *)
Definition ModelTrainer_init (config : ModelTrainerConfig)
    (artifact : DataTransformationArtifact) : M world ModelTrainer :=
  try_except_Exception
    (ret {| model_trainer_config := config;
            data_transformation_artifact := artifact;
            best_model_name := None |})
    (fun e => NetworkSecurityException e sys).

(** ** Further notions used in the properties *)

Definition is_run_end (ev : mlflow_event) : bool :=
  match ev with EndRun _ => true | _ => false end.

(** The call sites of [train_model]. *)
Definition train_model_sites : list site :=
  [at_evaluate_models; at_predict_train; at_score_train; at_predict_test; at_score_test]
  ++ track_sites ++ persist_sites.

(** A method step that, whatever its outcome, completes no serialization and
    leaves the two objects the trainer was built from in place. *)
Definition serializes_nothing {A} (m : M state A) : Prop :=
  forall self w r self' w',
    m (self, w) = (r, (self', w')) ->
    serialized w' = serialized w
    /\ model_trainer_config self' = model_trainer_config self
    /\ data_transformation_artifact self' = data_transformation_artifact self.

(** How far the two serializations of a run got: none completed and an
    exception; the bundle's completed and the bare model's raised; or both
    completed and a value returned. *)
Definition serialization_outcome `{Collaborators} {A} (configured : string)
    (before after : list (string * pyobj)) (r : result A) : Prop :=
  (after = before /\ exists e, r = Raise e)
  \/ (exists preprocessor best_model e,
        after = before ++ [(configured, NetworkModel preprocessor best_model)]
        /\ fault at_save_best_model = Some e
        /\ r = Raise e)
  \/ (exists preprocessor best_model a,
        after =
          before ++ [ (configured, NetworkModel preprocessor best_model);
                      (final_model_path, OEstimator best_model) ]
        /\ r = Ok a).

(** A method whose runs are all of one of these three kinds, for the path
    the trainer is configured with. *)
Definition serializes_in_order `{Collaborators} {A} (m : M state A) : Prop :=
  forall self w r self' w',
    m (self, w) = (r, (self', w')) ->
    serialization_outcome (config_trained_model_file_path (model_trainer_config self))
      (serialized w) (serialized w') r.

(** A method step that only adds to what the tracking service has received,
    and adds events of kind [P] only. *)
Definition sends (P : mlflow_event -> Prop) {A} (m : M state A) : Prop :=
  forall self w r self' w',
    m (self, w) = (r, (self', w')) ->
    exists events, tracking w' = tracking w ++ events /\ Forall P events.

(** An event that neither opens nor ends a run. *)
Definition inside_a_run (ev : mlflow_event) : Prop :=
  is_run_start ev = false /\ is_run_end ev = false.


Module Scenario.

Definition fitted (e : estimator) : estimator :=
  {| est_class := est_class e; est_kwargs := est_kwargs e; est_learned := Some [] |}.

Definition score_of (c : sklearn_class) : float :=
  match c with
  | RandomForestClassifier => 9 # 10
  | DecisionTreeClassifier => 95 # 100
  | GradientBoostingClassifier => 19 # 20
  | LogisticRegression => 8 # 10
  | AdaBoostClassifier => 7 # 10
  end.

Definition metrics : ClassificationMetricArtifact :=
  {| f1_score := 1 # 1; precision_score := 3 # 4; recall_score := 1 # 2 |}.

Definition collaborators (f : site -> option exn) (scheme : string) : Collaborators :=
  {| load_dotenv := fun env => env;
     fault := f;
     fit_and_score := fun e _ _ _ _ _ => (fitted e, score_of (est_class e));
     sk_predict := fun _ X => map (fun _ => 1 # 1) (rows X);
     get_classification_score := fun _ _ => metrics;
     get_tracking_uri := fun _ => "https://tracking.example/";
     urlparse_scheme := fun _ => scheme;
     os_path_dirname := fun _ => "artifacts" |}.

Definition no_fault : site -> option exn := fun _ => None.

Definition table : ndarray :=
  {| ncols := 3; rows := [[1 # 1; 2 # 1; 0 # 1]; [3 # 1; 4 # 1; 1 # 1]] |}.

Definition world0 : world :=
  {| environ := {[ "MLFLOW_TRACKING_URI" := "https://tracking.example/";
                   "MLFLOW_TRACKING_USERNAME" := "u";
                   "MLFLOW_TRACKING_PASSWORD" := "p" ]};
     environ_writes := [];
     files := {[ "train.npy" := ONdarray table; "test.npy" := ONdarray table;
                 "preprocessing.pkl" := OOther "preprocessor" ]};
     serialized := [];
     directories := ∅;
     tracking := [];
     calls := [] |}.

Definition trainer : ModelTrainer :=
  {| model_trainer_config := {| config_trained_model_file_path := "artifacts/model.pkl" |};
     data_transformation_artifact :=
       {| transformed_object_file_path := "preprocessing.pkl";
          transformed_train_file_path := "train.npy";
          transformed_test_file_path := "test.npy" |};
     best_model_name := None |}.

(** The same environment with the password set to the empty string. *)
Definition world_empty_password : world :=
  {| environ := <[ "MLFLOW_TRACKING_PASSWORD" := "" ]> (environ world0);
     environ_writes := [];
     files := files world0;
     serialized := [];
     directories := ∅;
     tracking := [];
     calls := [] |}.

(** A trainer configured to write its bundle where the bare model goes. *)
Definition trainer_same_path : ModelTrainer :=
  {| model_trainer_config := {| config_trained_model_file_path := final_model_path |};
     data_transformation_artifact := data_transformation_artifact trainer;
     best_model_name := None |}.

(** Features and labels of [table]. *)
Definition X : ndarray := columns_before_last table.
Definition y : vector := [0 # 1; 1 # 1].

(** The tracking service refuses the fourth metric. *)
Definition refused_metric : site -> option exn :=
  fun s =>
    match s with
    | at_log_test_f1 => Some (PyErr (OtherException "ConnectionError") "tracking service")
    | _ => None
    end.

(** Nothing faults and the tracking service is remote; nothing faults and
    it is a local file store; the service is remote and refuses a
    metric. *)
Definition remote : Collaborators := collaborators no_fault "https".
Definition local_store : Collaborators := collaborators no_fault "file".
Definition flaky : Collaborators := collaborators refused_metric "https".

(** The trainer as [train_model] leaves it, and the world as persisting
    finds it. *)
Definition trainer_named : ModelTrainer := named trainer "Decision Tree".

End Scenario.

Module Edge.

(** An array of two rows and no column. *)
Definition no_columns : ndarray := {| ncols := 0; rows := [[]; []] |}.

(** The files of [Scenario.world0] with the train array replaced by it. *)
Definition world_no_columns : world :=
  {| environ := environ Scenario.world0;
     environ_writes := [];
     files := <[ "train.npy" := ONdarray no_columns ]> (files Scenario.world0);
     serialized := [];
     directories := ∅;
     tracking := [];
     calls := [] |}.

(** The user interrupts the fit. *)
Definition interrupted_fit : site -> option exn :=
  fun s =>
    match s with
    | at_evaluate_models => Some (PyErr KeyboardInterrupt "")
    | _ => None
    end.

(** The disk is full when the bare model is written. *)
Definition disk_full : site -> option exn :=
  fun s =>
    match s with
    | at_save_best_model => Some (PyErr (OtherException "OSError") "No space left on device")
    | _ => None
    end.

Definition interrupted : Collaborators := Scenario.collaborators interrupted_fit "https".
Definition full_disk : Collaborators := Scenario.collaborators disk_full "https".

(** A report, and a latecomer that ties with its best entry. *)
Definition report : dict float := [("a", 1 # 2); ("b", 3 # 4); ("c", 1 # 4)].

End Edge.

(** * Properties *)

(** ** Module level *)

Section ModuleLevelFacts.
Context `{Collaborators}.

Lemma truthy_usable (env : gmap string string) (k : string) :
  truthy (env !! k) = true <-> usable env k.
Proof.
  unfold truthy, usable. destruct (env !! k) as [v|].
  - destruct (String.eqb_spec v ""); cbn; split.
    + discriminate.
    + intros (v' & Hv & Hne). congruence.
    + eauto.
    + reflexivity.
  - split; [discriminate | intros (v & Hv & _); discriminate].
Qed.

(** The module body as one case distinction on the three truth values. *)
Lemma module_load_cases (w : world) :
  let w0 := set_environ load_dotenv w in
  module_load w =
    if forallb (fun k => truthy (environ w0 !! k)) credential_names
    then
      match environ w0 !! MLFLOW_TRACKING_URI,
            environ w0 !! MLFLOW_TRACKING_USERNAME,
            environ w0 !! MLFLOW_TRACKING_PASSWORD with
      | Some uri, Some user, Some pass =>
          (Ok tt,
           record_write MLFLOW_TRACKING_PASSWORD pass
             (record_write MLFLOW_TRACKING_USERNAME user
                (record_write MLFLOW_TRACKING_URI uri w0)))
      | _, _, _ => (Raise (PyErr TypeError "str expected, not NoneType"), w0)
      end
    else (Raise (PyErr EnvironmentError missing_credentials_message), w0).
Proof.
  intros w0. unfold module_load, bind, getenv, py_all. fold w0.
  cbn [forallb credential_names].
  destruct (environ w0 !! MLFLOW_TRACKING_URI) as [uri|]; cbn [truthy andb negb];
    [destruct (negb (uri =? "")%string); cbn [andb negb] |]; try reflexivity.
  destruct (environ w0 !! MLFLOW_TRACKING_USERNAME) as [user|]; cbn [truthy andb negb];
    [destruct (negb (user =? "")%string); cbn [andb negb] |]; try reflexivity.
  destruct (environ w0 !! MLFLOW_TRACKING_PASSWORD) as [pass|]; cbn [truthy andb negb];
    [destruct (negb (pass =? "")%string); cbn [andb negb] |]; reflexivity.
Qed.

Lemma credentials_checked (env : gmap string string) :
  forallb (fun k => truthy (env !! k)) credential_names = true
  <-> forall k, In k credential_names -> usable env k.
Proof.
  rewrite forallb_forall. split; intros Hall k Hk; apply truthy_usable; auto.
Qed.

(** C3, as amended.  The credential check passes exactly when each of the
    three variables is set to a non-empty string in the environment that
    [load_dotenv] leaves.  When one of them is unset or empty, importing
    the module raises [EnvironmentError] straight after [load_dotenv], and
    a program that needs the module never starts. *)
Theorem module_load_credential_check (w : world) :
  let env := load_dotenv (environ w) in
  ((forall k, In k credential_names -> usable env k)
     <-> fst (module_load w) = Ok tt)
  /\ ((exists k, In k credential_names /\ ~ usable env k)
     <-> forall (A : Type) (program : M world A),
          import_then program w =
            (Raise (PyErr EnvironmentError missing_credentials_message),
             set_environ load_dotenv w)).
Proof.
  intros env.
  pose proof (module_load_cases w) as Hload. cbn zeta in Hload.
  pose proof (credentials_checked env) as Hchk.
  change (environ (set_environ load_dotenv w)) with env in Hload.
  destruct (forallb (fun k => truthy (env !! k)) credential_names) eqn:Hall.
  - assert (Hu : forall k, In k credential_names -> usable env k)
      by (apply Hchk; reflexivity).
    destruct (Hu MLFLOW_TRACKING_URI) as (uri & Huri & _); [cbn; auto |].
    destruct (Hu MLFLOW_TRACKING_USERNAME) as (user & Huser & _); [cbn; auto |].
    destruct (Hu MLFLOW_TRACKING_PASSWORD) as (pass & Hpass & _); [cbn; auto |].
    rewrite Huri, Huser, Hpass in Hload. split.
    + split; [intros _; now rewrite Hload | auto].
    + split.
      * intros (k & Hk & Hn). destruct Hn. auto.
      * intros Himp. specialize (Himp unit (ret tt)).
        unfold import_then, bind in Himp. rewrite Hload in Himp.
        discriminate.
  - assert (Hn : ~ forall k, In k credential_names -> usable env k).
    { intros Hu. apply Hchk in Hu. discriminate. }
    split.
    + split; [intros Hu; destruct (Hn Hu) | rewrite Hload; discriminate].
    + split.
      * intros _ A program. unfold import_then, bind. now rewrite Hload.
      * intros _.
        assert (Hone : forall k, truthy (env !! k) = false -> ~ usable env k).
        { intros k Hf Hu. apply truthy_usable in Hu. congruence. }
        cbn [forallb credential_names] in Hall.
        apply andb_false_iff in Hall as [Hf | Hall];
          [exists MLFLOW_TRACKING_URI; cbn; auto |].
        apply andb_false_iff in Hall as [Hf | Hall];
          [exists MLFLOW_TRACKING_USERNAME; cbn; auto |].
        apply andb_false_iff in Hall as [Hf | Hall];
          [exists MLFLOW_TRACKING_PASSWORD; cbn; auto | discriminate].
Qed.

(** C10.  When the check passes, the module assigns to [os.environ] three
    times, each credential under its own name with the value just read,
    and it has done so before any program that uses the trainer starts:
    the world a program starts in is the one the three assignments leave,
    made in this order in the world that [load_dotenv] leaves.  An
    assignment is a write, whatever was there before: in any world it
    makes the name read as the value given, and it is recorded. *)
Theorem module_load_writes_credentials_back (w w' : world) :
  module_load w = (Ok tt, w') ->
  exists uri user pass,
    let env := load_dotenv (environ w) in
    env !! MLFLOW_TRACKING_URI = Some uri
    /\ env !! MLFLOW_TRACKING_USERNAME = Some user
    /\ env !! MLFLOW_TRACKING_PASSWORD = Some pass
    /\ environ_writes w' =
         environ_writes w
         ++ [ (MLFLOW_TRACKING_URI, uri); (MLFLOW_TRACKING_USERNAME, user);
              (MLFLOW_TRACKING_PASSWORD, pass) ]
    /\ environ w' !! MLFLOW_TRACKING_URI = Some uri
    /\ environ w' !! MLFLOW_TRACKING_USERNAME = Some user
    /\ environ w' !! MLFLOW_TRACKING_PASSWORD = Some pass
    /\ (forall (A : Type) (program : M world A), import_then program w = program w')
    /\ (environ_setitem MLFLOW_TRACKING_URI (Some uri) ;;;
        environ_setitem MLFLOW_TRACKING_USERNAME (Some user) ;;;
        environ_setitem MLFLOW_TRACKING_PASSWORD (Some pass))
         (set_environ load_dotenv w) = (Ok tt, w')
    /\ environ w' =
         <[MLFLOW_TRACKING_PASSWORD := pass]>
           (<[MLFLOW_TRACKING_USERNAME := user]> (<[MLFLOW_TRACKING_URI := uri]> env))
    /\ forall (k v : string) (w0 : world),
         exists w1,
           environ_setitem k (Some v) w0 = (Ok tt, w1)
           /\ environ w1 = <[k := v]> (environ w0)
           /\ environ w1 !! k = Some v
           /\ environ_writes w1 = environ_writes w0 ++ [(k, v)].
Proof.
  intros Hrun. pose proof (module_load_cases w) as Hload. cbn zeta in Hload.
  rewrite Hrun in Hload.
  destruct (forallb _ credential_names); [| discriminate].
  set (env := load_dotenv (environ w)) in *.
  change (environ (set_environ load_dotenv w)) with env in Hload.
  destruct (env !! MLFLOW_TRACKING_URI) as [uri|] eqn:Huri; [| discriminate].
  destruct (env !! MLFLOW_TRACKING_USERNAME) as [user|] eqn:Huser; [| discriminate].
  destruct (env !! MLFLOW_TRACKING_PASSWORD) as [pass|] eqn:Hpass; [| discriminate].
  injection Hload as ->. exists uri, user, pass. cbn zeta.
  do 3 (split; [assumption |]).
  split; [cbn; now rewrite <- ?app_assoc |].
  split; [cbn; fold env; now rewrite !lookup_insert_ne, lookup_insert_eq by discriminate |].
  split; [cbn; fold env; now rewrite lookup_insert_ne, lookup_insert_eq by discriminate |].
  split; [cbn; fold env; now rewrite lookup_insert_eq |].
  split; [intros A program; unfold import_then, bind; now rewrite Hrun |].
  split; [reflexivity |]. split; [reflexivity |].
  intros k v w0. eexists. split; [reflexivity |]. split; [reflexivity |].
  split; [cbn; apply lookup_insert_eq | reflexivity].
Qed.

(** The three assignments store what was already there: lookups in the
    environment are the same before and after them. *)
Lemma module_load_keeps_lookups (w w' : world) :
  module_load w = (Ok tt, w') -> environ w' = load_dotenv (environ w).
Proof.
  intros Hrun. pose proof (module_load_cases w) as Hload. cbn zeta in Hload.
  rewrite Hrun in Hload.
  destruct (forallb _ credential_names); [| discriminate].
  set (env := load_dotenv (environ w)) in *.
  change (environ (set_environ load_dotenv w)) with env in Hload.
  destruct (env !! MLFLOW_TRACKING_URI) as [uri|] eqn:Huri; [| discriminate].
  destruct (env !! MLFLOW_TRACKING_USERNAME) as [user|] eqn:Huser; [| discriminate].
  destruct (env !! MLFLOW_TRACKING_PASSWORD) as [pass|] eqn:Hpass; [| discriminate].
  injection Hload as ->. cbn. fold env.
  rewrite (insert_id env _ _ Huri), (insert_id env _ _ Huser).
  now apply insert_id.
Qed.

End ModuleLevelFacts.

(** ** Running a method: inversion of a normal return *)

Section Inversion.
Context `{Collaborators}.

Lemma bind_Ok_inv {S A B} (m : M S A) (k : A -> M S B) st b st' :
  bind m k st = (Ok b, st') ->
  exists a st1, m st = (Ok a, st1) /\ k a st1 = (Ok b, st').
Proof.
  unfold bind. destruct (m st) as [[a|e] st1]; [eauto | discriminate].
Qed.

Lemma pure_Ok_inv {S A} (r : result A) (st st' : S) a :
  pure r st = (Ok a, st') -> r = Ok a /\ st' = st.
Proof. unfold pure. now intros [= -> ->]. Qed.

Lemma ret_Ok_inv {S A} (x a : A) (st st' : S) :
  ret x st = (Ok a, st') -> a = x /\ st' = st.
Proof. unfold ret. now intros [= -> ->]. Qed.

Lemma external_Ok_inv {A} (s : site) (work : M world A) self w a st' :
  external s work (self, w) = (Ok a, st') ->
  fault s = None /\ exists w', work (enter s w) = (Ok a, w') /\ st' = (self, w').
Proof.
  unfold external. destruct (fault s); [discriminate |].
  destruct (work (enter s w)) as [r w'] eqn:Hwork.
  intros [= -> <-]. eauto.
Qed.

Lemma mlflow_call_Ok_inv (s : site) (ev : mlflow_event) self w u st' :
  mlflow_call s ev (self, w) = (Ok u, st') ->
  fault s = None /\ st' = (self, send ev (enter s w)).
Proof.
  unfold mlflow_call. intros Hrun.
  apply external_Ok_inv in Hrun as (Hs & w' & Hsent & ->).
  injection Hsent as _ <-. auto.
Qed.

Lemma get_best_model_name_Ok_inv self w name st' :
  get_best_model_name (self, w) = (Ok name, st') ->
  best_model_name self = Some name /\ st' = (self, w).
Proof.
  unfold get_best_model_name. cbn.
  destruct (best_model_name self); [| discriminate]. now intros [= -> <-].
Qed.

Lemma with_start_run_Ok_inv run_name body self w u st' :
  with_start_run run_name body (self, w) = (Ok u, st') ->
  fault at_start_run = None /\ fault at_end_run = None
  /\ exists self1 w1,
       body (self, send (StartRun run_name) (enter at_start_run w)) = (Ok tt, (self1, w1))
       /\ st' = (self1, send (EndRun FINISHED) (enter at_end_run w1)).
Proof.
  unfold with_start_run. intros Hrun.
  apply bind_Ok_inv in Hrun as ([] & st1 & Hstart & Hrest).
  apply mlflow_call_Ok_inv in Hstart as (Hs & ->).
  destruct (body _) as [[[]|e] [self1 w1]] eqn:Hbody.
  - apply mlflow_call_Ok_inv in Hrest as (He & ->). eauto 8.
  - destruct (mlflow_call at_end_run (EndRun FAILED) (self1, w1)) as [[?|?] ?];
      discriminate.
Qed.

End Inversion.

Ltac invert_run H :=
  repeat
    match type of H with
    | bind _ _ _ = (Ok _, _) =>
        let a := fresh "a" in
        let st := fresh "st" in
        let Hfirst := fresh "Hstep" in
        apply bind_Ok_inv in H as (a & st & Hfirst & H);
        try invert_step Hfirst
    end
with invert_step H :=
  match type of H with
  | mlflow_call _ _ (_, _) = (Ok _, _) =>
      let Hs := fresh "Hsite" in
      apply mlflow_call_Ok_inv in H as (Hs & ->)
  | get_best_model_name (_, _) = (Ok _, _) =>
      let Hn := fresh "Hname" in
      apply get_best_model_name_Ok_inv in H as (Hn & ->)
  | pure _ _ = (Ok _, _) =>
      let Hr := fresh "Hpure" in
      apply pure_Ok_inv in H as (Hr & ->)
  | ret _ _ = (Ok _, _) => apply ret_Ok_inv in H as (-> & ->)
  end.

(** ** Selection of the best model *)

Section Selection.

Lemma float_gt_false (a b : float) : float_gt a b = false <-> Qle a b.
Proof.
  unfold float_gt. rewrite negb_false_iff. apply Qle_bool_iff.
Qed.

Lemma float_gt_true (a b : float) : float_gt a b = true <-> Qlt b a.
Proof.
  unfold float_gt. rewrite negb_true_iff. split.
  - intros Hle. apply Qnot_le_lt. intros Hab.
    apply Qle_bool_iff in Hab. congruence.
  - intros Hlt. destruct (Qle_bool a b) eqn:Hle; [| reflexivity].
    apply Qle_bool_iff in Hle. destruct (Qlt_not_le _ _ Hlt Hle).
Qed.

Lemma float_eq_true (a b : float) : float_eq a b = true <-> Qeq a b.
Proof. apply Qeq_bool_iff. Qed.

(** The loop of [max]: the result is the start value or an item, and
    nothing seen is greater. *)
Lemma running_max_spec (rest : list float) (start : float) :
  let m := fold_left (fun m v => if float_gt v m then v else m) rest start in
  Qle start m /\ Forall (fun v => Qle v m) rest /\ (m = start \/ In m rest).
Proof.
  revert start. induction rest as [|v rest IH]; intros start; cbn.
  - split; [apply Qle_refl | split; [constructor | now left]].
  - destruct (float_gt v start) eqn:Hgt.
    + destruct (IH v) as (Hle & Hall & Hin).
      apply float_gt_true in Hgt. split; [| split].
      * apply Qle_trans with v; [now apply Qlt_le_weak | assumption].
      * constructor; assumption.
      * right. destruct Hin as [-> | Hin]; [now left | now right].
    + destruct (IH start) as (Hle & Hall & Hin).
      apply float_gt_false in Hgt. split; [| split].
      * assumption.
      * constructor; [| assumption]. now apply Qle_trans with start.
      * destruct Hin as [-> | Hin]; [now left | right; now right].
Qed.

Lemma py_max_spec (l : list float) (m : float) :
  py_max l = Ok m -> In m l /\ Forall (fun v => Qle v m) l.
Proof.
  destruct l as [|x rest]; [discriminate |]. cbn. intros [= <-].
  destruct (running_max_spec rest x) as (Hle & Hall & Hin). split.
  - destruct Hin as [-> | Hin]; [now left | now right].
  - constructor; assumption.
Qed.

Lemma py_max_nonempty (l : list float) :
  l <> [] -> exists m, py_max l = Ok m.
Proof. destruct l; [congruence | cbn; eauto]. Qed.

(** [index] finds the first item equal to [x]. *)
Lemma list_index_spec (l : list float) (x : float) (i : nat) :
  list_index l x = Ok i ->
  (exists y, nth_error l i = Some y /\ Qeq y x)
  /\ (forall j z, nth_error l j = Some z -> Qeq z x -> (i <= j)%nat).
Proof.
  revert i. induction l as [|y l IH]; intros i; cbn; [discriminate |].
  destruct (float_eq y x) eqn:Heq.
  - intros [= <-]. apply float_eq_true in Heq. split; [eauto | intros; lia].
  - destruct (list_index l x) as [i'|] eqn:Hidx; [| discriminate].
    intros [= <-]. destruct (IH i' eq_refl) as (Hfound & Hfirst). split.
    + assumption.
    + intros [|j] z Hz Hzx; cbn in Hz.
      * injection Hz as ->. apply float_eq_true in Hzx. congruence.
      * specialize (Hfirst j z Hz Hzx). lia.
Qed.

Lemma list_index_found (l : list float) (x : float) :
  In x l -> exists i, list_index l x = Ok i.
Proof.
  induction l as [|y l IH]; [intros [] |]. cbn. intros [-> | Hin].
  - assert (Hxx : float_eq x x = true) by (apply float_eq_true; reflexivity).
    rewrite Hxx. eauto.
  - destruct (float_eq y x); [eauto |].
    destruct (IH Hin) as (i & ->). eauto.
Qed.

Lemma nth_error_dict {V : Type} (d : dict V) (i : nat) :
  nth_error d i =
    match nth_error (dict_keys d) i, nth_error (dict_values d) i with
    | Some k, Some v => Some (k, v)
    | _, _ => None
    end.
Proof.
  revert i. induction d as [|[k v] d IH]; intros [|i]; cbn; auto.
Qed.

(** Lines 81 and 82 on a report that is not empty. *)
Lemma select_best_spec (report : dict float) :
  report <> [] ->
  exists score name i,
    select_best report = Ok (score, name)
    /\ nth_error (dict_keys report) i = Some name
    /\ first_maximum report i name score.
Proof.
  intros Hne. unfold select_best.
  destruct (py_max_nonempty (dict_values report)) as (m & Hmax).
  { destruct report; [congruence | discriminate]. }
  rewrite Hmax. destruct (py_max_spec _ _ Hmax) as (Hin & Hall).
  destruct (list_index_found _ _ Hin) as (i & Hidx). rewrite Hidx.
  destruct (list_index_spec _ _ _ Hidx) as ((s & Hs & Hsm) & Hfirst).
  assert (Hlen : (i < length (dict_keys report))%nat).
  { assert (Hi : nth_error (dict_values report) i <> None) by congruence.
    apply nth_error_Some in Hi. unfold dict_keys, dict_values in *.
    now rewrite length_map in *. }
  destruct (nth_error (dict_keys report) i) as [name|] eqn:Hname.
  2:{ apply nth_error_None in Hname. lia. }
  unfold list_getitem. rewrite Hname.
  exists m, name, i. split; [reflexivity | split; [assumption |]].
  split; [| split].
  - exists s. split; [| assumption].
    now rewrite nth_error_dict, Hname, Hs.
  - intros n v Hnv. rewrite Forall_forall in Hall. apply Hall.
    apply list_elem_of_In. unfold dict_values.
    change v with (snd (n, v)). now apply in_map.
  - intros j n v Hj Hv. apply (Hfirst j v); [| assumption].
    rewrite nth_error_dict in Hj.
    destruct (nth_error (dict_keys report) j); [| discriminate].
    destruct (nth_error (dict_values report) j); [| discriminate].
    now injection Hj as -> ->.
Qed.

End Selection.

(** ** The report of [evaluate_models] *)

Section Evaluation.
Context `{Collaborators}.

Lemma evaluate_models_keys X_train y_train X_test y_test candidates param fitted report :
  evaluate_models X_train y_train X_test y_test candidates param = Ok (fitted, report) ->
  dict_keys fitted = dict_keys candidates /\ dict_keys report = dict_keys candidates.
Proof.
  revert fitted report. induction candidates as [|[name model] rest IH];
    intros fitted report; cbn.
  - now intros [= <- <-].
  - destruct (dict_getitem param name) as [para|]; [| discriminate].
    destruct (fit_and_score _ _ _ _ _ _) as [fitted1 score].
    destruct (evaluate_models _ _ _ _ rest param) as [[fitted_rest report_rest]|];
      [| discriminate].
    intros [= <- <-]. destruct (IH _ _ eq_refl) as [Hf Hr].
    unfold dict_keys in *. cbn. now rewrite Hf, Hr.
Qed.

Lemma dict_getitem_raises {V} (d : dict V) (k : string) :
  raises_own_errors_only (dict_getitem d k).
Proof.
  induction d as [|[k' v] d IH]; cbn; intros e.
  - intros [= <-]. eauto.
  - destruct (String.eqb k' k); [discriminate | apply IH].
Qed.

Lemma evaluate_models_raises X_train y_train X_test y_test candidates param :
  raises_own_errors_only
    (evaluate_models X_train y_train X_test y_test candidates param).
Proof.
  induction candidates as [|[name model] rest IH]; cbn; intros e; [discriminate |].
  destruct (dict_getitem param name) as [para|e0] eqn:Hget.
  - destruct (fit_and_score _ _ _ _ _ _) as [fitted1 score].
    destruct (evaluate_models _ _ _ _ rest param) as [[fitted_rest report_rest]|e1];
      [discriminate |].
    intros [= <-]. now apply IH.
  - intros [= <-]. now apply (dict_getitem_raises param name).
Qed.

Lemma dict_getitem_key {V} (d : dict V) (k : string) :
  In k (dict_keys d) -> exists v, dict_getitem d k = Ok v.
Proof.
  induction d as [|[k' v] d IH]; cbn; [intros [] |].
  destruct (String.eqb_spec k' k) as [-> | Hne]; [eauto |].
  intros [Heq | Hin]; [congruence | auto].
Qed.

Lemma list_index_raises (l : list float) (x : float) :
  raises_own_errors_only (list_index l x).
Proof.
  induction l as [|y l IH]; cbn; intros e.
  - intros [= <-]. eauto.
  - destruct (float_eq y x); [discriminate |].
    destruct (list_index l x); [discriminate |].
    intros [= <-]. now apply IH.
Qed.

Lemma select_best_raises (report : dict float) :
  raises_own_errors_only (select_best report).
Proof.
  unfold select_best. intros e.
  destruct (py_max (dict_values report)) as [m|e0] eqn:Hmax.
  - destruct (list_index (dict_values report) m) as [i|e1] eqn:Hidx.
    + unfold list_getitem. destruct (nth_error _ i); [discriminate |].
      intros [= <-]. eauto.
    + intros [= <-]. now apply (list_index_raises _ _ _ Hidx).
  - intros [= <-]. destruct (dict_values report); [| discriminate].
    injection Hmax as <-. eauto.
Qed.

Lemma column_last_raises (a : ndarray) : raises_own_errors_only (column_last a).
Proof.
  unfold column_last. intros e. destruct (ncols a =? 0)%nat; [| discriminate].
  intros [= <-]. eauto.
Qed.

End Evaluation.

Ltac each_site H :=
  unfold unfaulted in H; cbn [app] in H;
  repeat
    match type of H with
    | Forall _ (_ :: _) =>
        let Hs := fresh "Hs" in apply Forall_cons in H as (Hs & H)
    end.

Ltac pass_sites :=
  repeat
    (cbn [fst snd];
     match goal with
     | Hf : fault ?s = None |- context [fault ?s] => rewrite Hf
     | Hn : best_model_name ?self = Some _ |- context [best_model_name ?self] => rewrite Hn
     end).

(** ** [track_mlflow] *)

Section Tracking.
Context `{Collaborators}.

(** A run of [track_mlflow] that returns: the attribute was set, no site
    faulted, and the world has changed by the events sent and the calls
    recorded only. *)
Lemma track_mlflow_Ok_inv best_model train_metrics test_metrics self w u st' :
  track_mlflow best_model train_metrics test_metrics (self, w) = (Ok u, st') ->
  exists name w',
    best_model_name self = Some name
    /\ unfaulted track_sites
    /\ st' = (self, w')
    /\ same_outside_tracking w w'
    /\ tracking w' =
         tracking w
         ++ track_events (environ w !! MLFLOW_TRACKING_URI) (tracking_url_type_store w)
              name best_model train_metrics test_metrics
    /\ calls w' = calls w ++ track_sites.
Proof.
  intros Hrun. unfold track_mlflow in Hrun.
  apply bind_Ok_inv in Hrun as (uri & st1 & Huri & Hrun).
  cbn in Huri. injection Huri as <- <-.
  apply bind_Ok_inv in Hrun as ([] & st1 & Hstep & Hrun).
  apply mlflow_call_Ok_inv in Hstep as (Hsite1 & ->).
  apply bind_Ok_inv in Hrun as (tracking_uri & st1 & Hstep & Hrun).
  apply external_Ok_inv in Hstep as (Hsite2 & w1 & [= <- <-] & ->).
  apply bind_Ok_inv in Hrun as (scheme & st1 & Hstep & Hrun).
  apply external_Ok_inv in Hstep as (Hsite3 & w1 & [= <- <-] & ->).
  apply bind_Ok_inv in Hrun as (name & st1 & Hstep & Hrun).
  apply get_best_model_name_Ok_inv in Hstep as (Hname & ->).
  apply with_start_run_Ok_inv in Hrun as (Hsite4 & Hsite5 & self1 & w1 & Hbody & ->).
  invert_run Hbody.
  fold (tracking_url_type_store w) in Hbody.
  assert (a = name) as -> by congruence.
  match type of Hbody with
  | _ (_, ?before) = _ =>
      assert (Hlast : fault at_log_model = None
                      /\ (self1, w1) =
                           (self,
                            send (LogModel best_model "model"
                                    (registered_name (tracking_url_type_store w) name))
                              (enter at_log_model before)))
  end.
  { unfold registered_name.
    destruct (negb (tracking_url_type_store w =? "file")%string).
    - invert_run Hbody. assert (a = name) as -> by congruence.
      apply mlflow_call_Ok_inv in Hbody as (Hs & ->). auto.
    - apply mlflow_call_Ok_inv in Hbody as (Hs & ->). auto. }
  destruct Hlast as (Hmodel & [= -> ->]).
  eexists name, _. split; [assumption |]. split.
  { unfold unfaulted, track_sites, run_block_sites. cbn [app].
    repeat constructor; assumption. }
  split; [reflexivity |]. split; [| split].
  - repeat split; reflexivity.
  - cbn. rewrite <- ?app_assoc. reflexivity.
  - cbn. rewrite <- ?app_assoc. reflexivity.
Qed.

Lemma same_outside_tracking_refl w : same_outside_tracking w w.
Proof. repeat split. Qed.

Lemma same_outside_tracking_trans w1 w2 w3 :
  same_outside_tracking w1 w2 -> same_outside_tracking w2 w3 ->
  same_outside_tracking w1 w3.
Proof.
  unfold same_outside_tracking. intros (? & ? & ? & ?) (? & ? & ? & ?).
  repeat split; congruence.
Qed.

Lemma keeps_bind {A B} (m : M state A) (k : A -> M state B) :
  keeps_trainer_and_files m -> (forall a, keeps_trainer_and_files (k a)) ->
  keeps_trainer_and_files (bind m k).
Proof.
  intros Hm Hk self w r self' w'. unfold bind.
  destruct (m (self, w)) as [[a|e] [self1 w1]] eqn:Hrun.
  - intros Hrest. destruct (Hm _ _ _ _ _ Hrun) as (-> & Hw1).
    destruct (Hk a _ _ _ _ _ Hrest) as (-> & Hw2).
    split; [reflexivity | eapply same_outside_tracking_trans; eassumption].
  - intros [= <- <- <-]. exact (Hm _ _ _ _ _ Hrun).
Qed.

Lemma keeps_external {A} (s : site) (work : M world A) :
  (forall w r w', work w = (r, w') -> same_outside_tracking w w') ->
  keeps_trainer_and_files (external s work).
Proof.
  intros Hwork self w r self' w'. unfold external.
  destruct (fault s).
  - intros [= <- <- <-]. split; [reflexivity | repeat split].
  - destruct (work (enter s w)) as [r1 w1] eqn:Hrun. intros [= <- <- <-].
    split; [reflexivity |].
    eapply same_outside_tracking_trans; [| exact (Hwork _ _ _ Hrun)].
    repeat split.
Qed.

Lemma keeps_mlflow_call (s : site) (ev : mlflow_event) :
  keeps_trainer_and_files (mlflow_call s ev).
Proof.
  apply keeps_external. intros w r w' [= <- <-]. repeat split.
Qed.

Lemma keeps_get_best_model_name : keeps_trainer_and_files get_best_model_name.
Proof.
  intros self w r self' w'. unfold get_best_model_name. cbn.
  destruct (best_model_name self); intros [= <- <- <-];
    (split; [reflexivity | apply same_outside_tracking_refl]).
Qed.

Lemma keeps_with_start_run (run_name : string) (body : M state unit) :
  keeps_trainer_and_files body ->
  keeps_trainer_and_files (with_start_run run_name body).
Proof.
  intros Hbody. unfold with_start_run. apply keeps_bind.
  - apply keeps_mlflow_call.
  - intros _ self w r self' w'.
    destruct (body (self, w)) as [[u|e] [self1 w1]] eqn:Hrun.
    + intros Hend. destruct (Hbody _ _ _ _ _ Hrun) as (-> & Hw1).
      destruct (keeps_mlflow_call _ _ _ _ _ _ _ Hend) as (-> & Hw2).
      split; [reflexivity | eapply same_outside_tracking_trans; eassumption].
    + destruct (mlflow_call at_end_run (EndRun FAILED) (self1, w1))
        as [[u|e'] [self2 w2]] eqn:Hend;
        intros [= <- <- <-];
        destruct (Hbody _ _ _ _ _ Hrun) as (-> & Hw1);
        destruct (keeps_mlflow_call _ _ _ _ _ _ _ Hend) as (-> & Hw2);
        (split; [reflexivity | eapply same_outside_tracking_trans; eassumption]).
Qed.

(** Whatever its outcome, [track_mlflow] leaves the trainer object, the
    environment, the files and the directories as they were. *)
Lemma track_mlflow_keeps best_model train_metrics test_metrics :
  keeps_trainer_and_files (track_mlflow best_model train_metrics test_metrics).
Proof.
  unfold track_mlflow.
  apply keeps_bind.
  { intros self w r self' w' [= <- <- <-].
    split; [reflexivity | apply same_outside_tracking_refl]. }
  intros uri.
  repeat first
    [ apply keeps_mlflow_call
    | apply keeps_get_best_model_name
    | apply keeps_with_start_run
    | apply keeps_bind; [| intros ?]
    | apply keeps_external; intros w r w' [= <- <-]; apply same_outside_tracking_refl
    | match goal with |- keeps_trainer_and_files (if ?b then _ else _) => destruct b end ].
Qed.

(** Forward through [track_mlflow]: with the attribute set and no fault it
    returns. *)
Lemma track_mlflow_run best_model train_metrics test_metrics self w name :
  best_model_name self = Some name ->
  unfaulted track_sites ->
  exists w', track_mlflow best_model train_metrics test_metrics (self, w) = (Ok tt, (self, w')).
Proof.
  intros Hname Hsites. unfold track_sites, run_block_sites in Hsites. each_site Hsites.
  unfold track_mlflow, with_start_run, mlflow_call, bind, external, in_world, getenv,
    get_best_model_name, ret.
  pass_sites. destruct (negb _); pass_sites; eauto.
Qed.

End Tracking.

(** ** [persist_and_package] and [train_model] *)

Section Training.
Context `{Collaborators}.

Lemma persist_and_package_Ok_inv best_model train_metric test_metric self w art st' :
  persist_and_package best_model train_metric test_metric (self, w) = (Ok art, st') ->
  let configured := config_trained_model_file_path (model_trainer_config self) in
  exists preprocessor w',
    unfaulted persist_sites
    /\ os_path_dirname configured <> ""
    /\ files w !! transformed_object_file_path (data_transformation_artifact self)
       = Some preprocessor
    /\ st' = (self, w')
    /\ art = {| trained_model_file_path := configured;
                train_metric_artifact := train_metric;
                test_metric_artifact := test_metric |}
    /\ files w' =
         <[final_model_path := OEstimator best_model]>
           (<[configured := NetworkModel preprocessor best_model]> (files w))
    /\ environ w' = environ w
    /\ tracking w' = tracking w
    /\ calls w' = calls w ++ persist_sites.
Proof.
  intros Hrun configured. unfold persist_and_package in Hrun.
  apply bind_Ok_inv in Hrun as (self0 & st1 & [= <- <-] & Hrun).
  apply bind_Ok_inv in Hrun as (preprocessor & st1 & Hstep & Hrun).
  apply external_Ok_inv in Hstep as (Hsite1 & w1 & Hload & ->).
  unfold load_object in Hload. cbn [files enter] in Hload.
  destruct (files w !! _) as [o|] eqn:Hfile; [| discriminate].
  injection Hload as -> <-.
  apply bind_Ok_inv in Hrun as ([] & st1 & Hstep & Hrun).
  apply external_Ok_inv in Hstep as (Hsite2 & w1 & Hmake & ->).
  unfold makedirs_exist_ok in Hmake.
  destruct (String.eqb_spec (os_path_dirname
              (config_trained_model_file_path (model_trainer_config self))) "")
    as [Hempty | Hdir]; [discriminate |].
  injection Hmake as <-.
  apply bind_Ok_inv in Hrun as ([] & st1 & Hstep & Hrun).
  apply external_Ok_inv in Hstep as (Hsite3 & w1 & [= <-] & ->).
  apply bind_Ok_inv in Hrun as ([] & st1 & Hstep & Hrun).
  apply external_Ok_inv in Hstep as (Hsite4 & w1 & [= <-] & ->).
  injection Hrun as <- <-.
  eexists preprocessor, _. split.
  { unfold unfaulted, persist_sites. repeat constructor; assumption. }
  split; [exact Hdir |].
  repeat split; try reflexivity.
  cbn. rewrite <- ?app_assoc. reflexivity.
Qed.

(** The other direction: with the preprocessor on file and no fault,
    persist-and-package returns. *)
Lemma persist_and_package_run best_model train_metric test_metric self w preprocessor :
  unfaulted persist_sites ->
  files w !! transformed_object_file_path (data_transformation_artifact self)
    = Some preprocessor ->
  let configured := config_trained_model_file_path (model_trainer_config self) in
  os_path_dirname configured <> "" ->
  exists w',
    persist_and_package best_model train_metric test_metric (self, w) =
      (Ok {| trained_model_file_path := configured;
             train_metric_artifact := train_metric;
             test_metric_artifact := test_metric |}, (self, w'))
    /\ files w' =
         <[final_model_path := OEstimator best_model]>
           (<[configured := NetworkModel preprocessor best_model]> (files w))
    /\ environ w' = environ w
    /\ directories w' = {[os_path_dirname configured]} ∪ directories w
    /\ tracking w' = tracking w.
Proof.
  intros Hsites Hfile configured Hdir. unfold unfaulted, persist_sites in Hsites.
  apply String.eqb_neq in Hdir.
  apply Forall_cons in Hsites as (Hs1 & Hsites).
  apply Forall_cons in Hsites as (Hs2 & Hsites).
  apply Forall_cons in Hsites as (Hs3 & Hsites).
  apply Forall_cons in Hsites as (Hs4 & _).
  eexists. unfold persist_and_package, bind, get_self, external, load_object,
    makedirs_exist_ok, save_object, ret.
  cbn [fst files enter]. fold configured. rewrite Hs1, Hfile, Hs2, Hdir, Hs3, Hs4.
  repeat split; reflexivity.
Qed.

(** A run of [train_model] that returns, step by step. *)
Lemma train_model_with_Ok_inv tracker X_train y_train X_test y_test self w art st' :
  train_model_with tracker X_train y_train X_test y_test (self, w) = (Ok art, st') ->
  exists fitted report score name best_model,
    let train_metric := get_classification_score y_train (sk_predict best_model X_train) in
    let test_metric := get_classification_score y_test (sk_predict best_model X_test) in
    unfaulted [at_evaluate_models; at_predict_train; at_score_train;
               at_predict_test; at_score_test]
    /\ evaluate_models X_train y_train X_test y_test models params = Ok (fitted, report)
    /\ select_best report = Ok (score, name)
    /\ dict_getitem fitted name = Ok best_model
    /\ exists st_tracked,
         tracker best_model train_metric test_metric (named self name, before_tracking w)
           = (Ok tt, st_tracked)
         /\ persist_and_package best_model train_metric test_metric st_tracked
            = (Ok art, st').
Proof.
  intros Hrun. unfold train_model_with in Hrun.
  apply bind_Ok_inv in Hrun as ([fitted report] & st1 & Hstep & Hrun).
  apply external_Ok_inv in Hstep as (Hsite1 & w1 & Heval & ->).
  apply pure_Ok_inv in Heval as (Heval & ->).
  apply bind_Ok_inv in Hrun as ([score name] & st1 & Hstep & Hrun).
  apply pure_Ok_inv in Hstep as (Hsel & ->).
  apply bind_Ok_inv in Hrun as ([] & st1 & [= <-] & Hrun).
  apply bind_Ok_inv in Hrun as (best_model & st1 & Hstep & Hrun).
  apply pure_Ok_inv in Hstep as (Hget & ->).
  apply bind_Ok_inv in Hrun as (y_train_pred & st1 & Hstep & Hrun).
  apply external_Ok_inv in Hstep as (Hsite2 & w1 & [= <- <-] & ->).
  apply bind_Ok_inv in Hrun as (train_metric & st1 & Hstep & Hrun).
  apply external_Ok_inv in Hstep as (Hsite3 & w1 & [= <- <-] & ->).
  apply bind_Ok_inv in Hrun as (y_test_pred & st1 & Hstep & Hrun).
  apply external_Ok_inv in Hstep as (Hsite4 & w1 & [= <- <-] & ->).
  apply bind_Ok_inv in Hrun as (test_metric & st1 & Hstep & Hrun).
  apply external_Ok_inv in Hstep as (Hsite5 & w1 & [= <- <-] & ->).
  apply bind_Ok_inv in Hrun as ([] & st_tracked & Hstep & Hrun).
  exists fitted, report, score, name, best_model. cbn zeta.
  split; [unfold unfaulted; repeat constructor; assumption |].
  repeat (split; [assumption |]). eauto.
Qed.

(** And forward: once selection has succeeded, [train_model] is the
    tracker followed by persist-and-package. *)
Lemma train_model_with_run tracker X_train y_train X_test y_test self w
      fitted report score name best_model :
  unfaulted [at_evaluate_models; at_predict_train; at_score_train;
             at_predict_test; at_score_test] ->
  evaluate_models X_train y_train X_test y_test models params = Ok (fitted, report) ->
  select_best report = Ok (score, name) ->
  dict_getitem fitted name = Ok best_model ->
  let train_metric := get_classification_score y_train (sk_predict best_model X_train) in
  let test_metric := get_classification_score y_test (sk_predict best_model X_test) in
  train_model_with tracker X_train y_train X_test y_test (self, w) =
    bind (tracker best_model train_metric test_metric)
      (fun _ => persist_and_package best_model train_metric test_metric)
      (named self name, before_tracking w).
Proof.
  intros Hsites Heval Hsel Hget. unfold unfaulted in Hsites.
  apply Forall_cons in Hsites as (Hs1 & Hsites).
  apply Forall_cons in Hsites as (Hs2 & Hsites).
  apply Forall_cons in Hsites as (Hs3 & Hsites).
  apply Forall_cons in Hsites as (Hs4 & Hsites).
  apply Forall_cons in Hsites as (Hs5 & _).
  cbn zeta. unfold train_model_with.
  unfold bind at 1. unfold external at 1. rewrite Hs1. unfold pure at 1. rewrite Heval.
  unfold bind at 1. unfold pure at 1. rewrite Hsel.
  unfold bind at 1. unfold set_best_model_name at 1.
  unfold bind at 1. unfold pure at 1. rewrite Hget.
  unfold bind at 1. unfold external at 1. rewrite Hs2. unfold ret at 1.
  unfold bind at 1. unfold external at 1. rewrite Hs3. unfold ret at 1.
  unfold bind at 1. unfold external at 1. rewrite Hs4. unfold ret at 1.
  unfold bind at 1. unfold external at 1. rewrite Hs5. unfold ret at 1.
  reflexivity.
Qed.

End Training.

(** ** What a run serializes *)

Section Serializations.
Context `{Collaborators}.

Lemma sn_bind {A B} (m : M state A) (k : A -> M state B) :
  serializes_nothing m -> (forall a, serializes_nothing (k a)) ->
  serializes_nothing (bind m k).
Proof.
  intros Hm Hk self w r self' w'. unfold bind.
  destruct (m (self, w)) as [[a|e] [self1 w1]] eqn:Hrun.
  - intros Hrest. destruct (Hm _ _ _ _ _ Hrun) as (Hs1 & Hc1 & Ha1).
    destruct (Hk a _ _ _ _ _ Hrest) as (Hs2 & Hc2 & Ha2).
    repeat split; congruence.
  - intros [= <- <- <-]. exact (Hm _ _ _ _ _ Hrun).
Qed.

Lemma sn_external {A} (s : site) (work : M world A) :
  (forall w r w', work w = (r, w') -> serialized w' = serialized w) ->
  serializes_nothing (external s work).
Proof.
  intros Hwork self w r self' w'. unfold external. destruct (fault s).
  - intros [= <- <- <-]. repeat split.
  - destruct (work (enter s w)) as [r1 w1] eqn:Hrun. intros [= <- <- <-].
    repeat split. now rewrite (Hwork _ _ _ Hrun).
Qed.

Lemma sn_mlflow_call (s : site) (ev : mlflow_event) : serializes_nothing (mlflow_call s ev).
Proof. apply sn_external. now intros w r w' [= <- <-]. Qed.

Lemma sn_pure {A} (r : result A) : serializes_nothing (pure r).
Proof. intros self w r' self' w' [= <- <- <-]. repeat split. Qed.

Lemma sn_set_best_model_name (name : string) :
  serializes_nothing (set_best_model_name name).
Proof. intros self w r' self' w' [= <- <- <-]. repeat split. Qed.

Lemma sn_get_best_model_name : serializes_nothing get_best_model_name.
Proof.
  intros self w r self' w'. unfold get_best_model_name. cbn.
  destruct (best_model_name self); intros [= <- <- <-]; repeat split.
Qed.

Lemma sn_getenv (k : string) : serializes_nothing (in_world (getenv k)).
Proof. intros self w r self' w' [= <- <- <-]. repeat split. Qed.

Lemma sn_with_start_run (run_name : string) (body : M state unit) :
  serializes_nothing body -> serializes_nothing (with_start_run run_name body).
Proof.
  intros Hbody. unfold with_start_run. apply sn_bind; [apply sn_mlflow_call |].
  intros _ self w r self' w'.
  destruct (body (self, w)) as [[u|e] [self1 w1]] eqn:Hrun;
    destruct (Hbody _ _ _ _ _ Hrun) as (Hs1 & Hc1 & Ha1).
  - intros Hend. destruct (sn_mlflow_call _ _ _ _ _ _ _ Hend) as (Hs2 & Hc2 & Ha2).
    repeat split; congruence.
  - destruct (mlflow_call at_end_run (EndRun FAILED) (self1, w1))
      as [[u|e'] [self2 w2]] eqn:Hend;
      intros [= <- <- <-];
      destruct (sn_mlflow_call _ _ _ _ _ _ _ Hend) as (Hs2 & Hc2 & Ha2);
      repeat split; congruence.
Qed.

(** [track_mlflow] never calls the serializer. *)
Lemma track_mlflow_serializes_nothing best_model train_metrics test_metrics :
  serializes_nothing (track_mlflow best_model train_metrics test_metrics).
Proof.
  unfold track_mlflow.
  repeat first
    [ apply sn_getenv
    | apply sn_mlflow_call
    | apply sn_get_best_model_name
    | apply sn_with_start_run
    | apply sn_bind; [| intros ?]
    | apply sn_external; intros w r w' [= <- <-]; reflexivity
    | match goal with
      | |- serializes_nothing (if ?b then _ else _) => destruct b
      end ].
Qed.

(** Steps that serialize nothing, then a step that serializes in order. *)
Lemma serializes_in_order_after {A B} (m : M state A) (k : A -> M state B) :
  serializes_nothing m -> (forall a, serializes_in_order (k a)) ->
  serializes_in_order (bind m k).
Proof.
  intros Hm Hk self w r self' w'. unfold bind.
  destruct (m (self, w)) as [[a|e] [self1 w1]] eqn:Hrun.
  - intros Hrest. destruct (Hm _ _ _ _ _ Hrun) as (Hs & Hc & _).
    specialize (Hk a _ _ _ _ _ Hrest). now rewrite Hs, Hc in Hk.
  - intros [= <- <- <-]. destruct (Hm _ _ _ _ _ Hrun) as (Hs & _).
    left. split; [assumption | eauto].
Qed.

Lemma persist_and_package_serializes_in_order best_model train_metric test_metric :
  serializes_in_order (persist_and_package best_model train_metric test_metric).
Proof.
  intros self w r self' w'. unfold persist_and_package.
  unfold bind at 1. unfold get_self at 1. cbn [fst].
  unfold bind at 1. unfold external at 1.
  destruct (fault at_load_object) as [e|].
  { intros [= <- <- <-]. left. split; [reflexivity | eauto]. }
  unfold load_object at 1. cbn [files enter].
  destruct (files w !! _) as [preprocessor|].
  2:{ intros [= <- <- <-]. left. split; [reflexivity | eauto]. }
  unfold bind at 1. unfold external at 1.
  destruct (fault at_makedirs) as [e|].
  { intros [= <- <- <-]. left. split; [reflexivity | eauto]. }
  unfold makedirs_exist_ok at 1. destruct (String.eqb _ "").
  { intros [= <- <- <-]. left. split; [reflexivity | eauto]. }
  unfold bind at 1. unfold external at 1.
  destruct (fault at_save_network_model) as [e|].
  { intros [= <- <- <-]. left. split; [reflexivity | eauto]. }
  unfold save_object at 1.
  unfold bind at 1. unfold external at 1.
  destruct (fault at_save_best_model) as [e|] eqn:Hlast.
  { intros [= <- <- <-]. right. left. exists preprocessor, best_model, e.
    split; [reflexivity | split; [exact Hlast | reflexivity]]. }
  unfold save_object at 1. unfold ret.
  intros [= <- <- <-]. right. right. eexists preprocessor, best_model, _.
  split; [| reflexivity]. cbn. now rewrite <- app_assoc.
Qed.

(** A run of [persist_and_package] that returns, with what it has
    serialized. *)
Lemma persist_and_package_serializes best_model train_metric test_metric self w art st' :
  persist_and_package best_model train_metric test_metric (self, w) = (Ok art, st') ->
  let configured := config_trained_model_file_path (model_trainer_config self) in
  exists preprocessor w',
    st' = (self, w')
    /\ files w !! transformed_object_file_path (data_transformation_artifact self)
       = Some preprocessor
    /\ serialized w' =
         serialized w ++ [ (configured, NetworkModel preprocessor best_model);
                           (final_model_path, OEstimator best_model) ]
    /\ files w' !! final_model_path = Some (OEstimator best_model)
    /\ directories w' = {[os_path_dirname configured]} ∪ directories w
    /\ os_path_dirname configured <> ""
    /\ art = {| trained_model_file_path := configured;
                train_metric_artifact := train_metric;
                test_metric_artifact := test_metric |}.
Proof.
  intros Hrun configured. unfold persist_and_package in Hrun.
  apply bind_Ok_inv in Hrun as (self0 & st1 & [= <- <-] & Hrun).
  apply bind_Ok_inv in Hrun as (preprocessor & st1 & Hstep & Hrun).
  apply external_Ok_inv in Hstep as (_ & w1 & Hload & ->).
  unfold load_object in Hload. cbn [files enter] in Hload.
  destruct (files w !! _) as [o|] eqn:Hfile; [| discriminate].
  injection Hload as -> <-.
  apply bind_Ok_inv in Hrun as ([] & st1 & Hstep & Hrun).
  apply external_Ok_inv in Hstep as (_ & w1 & Hmake & ->).
  unfold makedirs_exist_ok in Hmake. fold configured in Hmake.
  destruct (String.eqb_spec (os_path_dirname configured) "") as [Hempty | Hdir];
    [discriminate |].
  injection Hmake as <-.
  apply bind_Ok_inv in Hrun as ([] & st1 & Hstep & Hrun).
  apply external_Ok_inv in Hstep as (_ & w1 & [= <-] & ->).
  apply bind_Ok_inv in Hrun as ([] & st1 & Hstep & Hrun).
  apply external_Ok_inv in Hstep as (_ & w1 & [= <-] & ->).
  injection Hrun as <- <-.
  exists preprocessor. eexists. split; [reflexivity |]. split; [reflexivity |].
  split; [cbn; now rewrite <- app_assoc |].
  split; [cbn; apply lookup_insert_eq |].
  split; [reflexivity |]. split; [exact Hdir | reflexivity].
Qed.

End Serializations.

(** ** After the selection, the trainer object stays as it is *)

Section TrainerObject.
Context `{Collaborators}.

Lemma keeps_self_bind {A B} (m : M state A) (k : A -> M state B) :
  keeps_self m -> (forall a, keeps_self (k a)) -> keeps_self (bind m k).
Proof.
  intros Hm Hk self w r self' w'. unfold bind.
  destruct (m (self, w)) as [[a|e] [self1 w1]] eqn:Hrun.
  - intros Hrest. apply Hm in Hrun as ->. now apply Hk in Hrest.
  - intros [= <- <- <-]. now apply Hm in Hrun.
Qed.

Lemma keeps_self_external {A} (s : site) (work : M world A) :
  keeps_self (external s work).
Proof.
  intros self w r self' w'. unfold external. destruct (fault s).
  - now intros [= <- <- <-].
  - destruct (work (enter s w)). now intros [= <- <- <-].
Qed.

Lemma keeps_self_pure {A} (r : result A) : keeps_self (pure r).
Proof. intros self w r' self' w'. now intros [= <- <- <-]. Qed.

Lemma keeps_self_ret {A} (a : A) : keeps_self (ret a).
Proof. intros self w r' self' w'. now intros [= <- <- <-]. Qed.

Lemma keeps_self_get_self : keeps_self get_self.
Proof. intros self w r' self' w'. now intros [= <- <- <-]. Qed.

Lemma track_mlflow_keeps_self best_model train_metrics test_metrics :
  keeps_self (track_mlflow best_model train_metrics test_metrics).
Proof.
  intros self w r self' w' Hrun. now apply track_mlflow_keeps in Hrun as (-> & _).
Qed.

Lemma persist_and_package_keeps_self best_model train_metric test_metric :
  keeps_self (persist_and_package best_model train_metric test_metric).
Proof.
  unfold persist_and_package.
  repeat first
    [ apply keeps_self_get_self
    | apply keeps_self_external
    | apply keeps_self_ret
    | apply keeps_self_bind; [| intros ?] ].
Qed.

(** On the two tables of this file, [evaluate_models] finds a grid for
    every candidate and returns. *)
Lemma evaluate_models_returns X_train y_train X_test y_test :
  exists fitted report,
    evaluate_models X_train y_train X_test y_test models params = Ok (fitted, report).
Proof.
  unfold models, params. cbn.
  repeat
    match goal with
    | |- context [fit_and_score ?e ?g ?a ?b ?c ?d] =>
        destruct (fit_and_score e g a b c d)
    end.
  eauto.
Qed.

(** Whatever happens after line 83, [best_model_name] is what the
    selection has put there. *)
Lemma train_model_names_the_selected
    X_train y_train X_test y_test self w r self' w' fitted report score name :
  train_model X_train y_train X_test y_test (self, w) = (r, (self', w')) ->
  fault at_evaluate_models = None ->
  evaluate_models X_train y_train X_test y_test models params = Ok (fitted, report) ->
  select_best report = Ok (score, name) ->
  self' = named self name.
Proof.
  intros Hrun Hfault Heval Hsel. unfold train_model, train_model_with in Hrun.
  unfold bind at 1 in Hrun. unfold external at 1 in Hrun. rewrite Hfault in Hrun.
  unfold pure at 1 in Hrun. rewrite Heval in Hrun.
  unfold bind at 1 in Hrun. unfold pure at 1 in Hrun. rewrite Hsel in Hrun.
  unfold bind at 1 in Hrun. unfold set_best_model_name at 1 in Hrun.
  match type of Hrun with
  | ?rest _ = _ => assert (Hrest : keeps_self rest)
  end.
  { repeat first
      [ apply track_mlflow_keeps_self
      | apply persist_and_package_keeps_self
      | apply keeps_self_pure
      | apply keeps_self_external
      | apply keeps_self_bind; [| intros ?] ]. }
  exact (Hrest _ _ _ _ _ Hrun).
Qed.

End TrainerObject.

(** ** What the specification says about training and tracking *)

Section TrainerProperties.
Context `{Collaborators}.

(** C1.  In every run of [train_model] in which the call of
    [evaluate_models] does not raise, whatever happens later in the run,
    [best_model_name] becomes the name of a candidate whose score in the
    evaluation report is the maximum over all candidates; the report lists
    the candidates in their declaration order, and of several candidates
    with that top score the one declared first is the one selected. *)
Theorem train_model_selects_first_maximum
    X_train y_train X_test y_test (st st' : state) (r : result ModelTrainerArtifact) :
  train_model X_train y_train X_test y_test st = (r, st') ->
  fault at_evaluate_models = None ->
  exists fitted report score name i,
    evaluate_models X_train y_train X_test y_test models params = Ok (fitted, report)
    /\ dict_keys report = dict_keys models
    /\ select_best report = Ok (score, name)
    /\ best_model_name (fst st') = Some name
    /\ nth_error (dict_keys models) i = Some name
    /\ first_maximum report i name score.
Proof.
  destruct st as [self w], st' as [self' w']. intros Hrun Hfault.
  destruct (evaluate_models_returns X_train y_train X_test y_test)
    as (fitted & report & Heval).
  destruct (evaluate_models_keys _ _ _ _ _ _ _ _ Heval) as (_ & Hkeys).
  destruct (select_best_spec report) as (score & name & i & Hsel & Hi & Hfirst).
  { intros ->. discriminate Hkeys. }
  rewrite (train_model_names_the_selected _ _ _ _ _ _ _ _ _ _ _ _ _ Hrun Hfault Heval Hsel).
  exists fitted, report, score, name, i.
  repeat split; try assumption; try apply Hfirst.
  now rewrite <- Hkeys.
Qed.

(** C4, as amended.  A run of [train_model] that returns has completed
    exactly two serializations: first the preprocessor, as loaded after
    tracking, paired with the best model, to the configured path; then the
    bare best model, to [final_model/model.pkl], which afterwards reads as
    that model.  Nothing makes the two paths differ: when the configured
    path is the fixed one, it reads as the bare model too.  The artifact
    carries the configured path and the two metric bundles. *)
Theorem train_model_serializes_bundle_then_model
    X_train y_train X_test y_test self w art self' w' :
  train_model X_train y_train X_test y_test (self, w) = (Ok art, (self', w')) ->
  let configured := config_trained_model_file_path (model_trainer_config self) in
  exists fitted report name best_model preprocessor w_loaded,
    let train_metric := get_classification_score y_train (sk_predict best_model X_train) in
    let test_metric := get_classification_score y_test (sk_predict best_model X_test) in
    evaluate_models X_train y_train X_test y_test models params = Ok (fitted, report)
    /\ best_model_name self' = Some name
    /\ dict_getitem fitted name = Ok best_model
    /\ track_mlflow best_model train_metric test_metric (self', before_tracking w)
       = (Ok tt, (self', w_loaded))
    /\ persist_and_package best_model train_metric test_metric (self', w_loaded)
       = (Ok art, (self', w'))
    /\ files w_loaded !! transformed_object_file_path (data_transformation_artifact self)
       = Some preprocessor
    /\ serialized w' =
         serialized w ++ [ (configured, NetworkModel preprocessor best_model);
                           (final_model_path, OEstimator best_model) ]
    /\ files w' !! final_model_path = Some (OEstimator best_model)
    /\ (configured = final_model_path ->
        files w' !! configured = Some (OEstimator best_model))
    /\ art =
         {| trained_model_file_path := configured;
            train_metric_artifact := train_metric;
            test_metric_artifact := test_metric |}.
Proof.
  intros Hrun configured. unfold train_model in Hrun.
  apply train_model_with_Ok_inv in Hrun
    as (fitted & report & score & name & best_model & _ & Heval & Hsel & Hget
        & [self1 w1] & Htrack & Hpersist).
  pose proof (track_mlflow_keeps_self _ _ _ _ _ _ _ _ Htrack) as ->.
  destruct (track_mlflow_serializes_nothing _ _ _ _ _ _ _ _ Htrack) as (Hlog & _).
  destruct (persist_and_package_serializes _ _ _ _ _ _ _ Hpersist)
    as (preprocessor & w2 & [= -> ->] & Hpre & Hlog2 & Hbare & _ & _ & Hart).
  cbn [named model_trainer_config data_transformation_artifact] in Hpre, Hlog2, Hart.
  fold configured in Hlog2, Hart.
  exists fitted, report, name, best_model, preprocessor, w1. cbn zeta.
  split; [exact Heval |]. split; [reflexivity |]. split; [exact Hget |].
  split; [exact Htrack |]. split; [exact Hpersist |]. split; [exact Hpre |].
  split; [now rewrite Hlog2, Hlog |]. split; [exact Hbare |].
  split; [now intros -> | exact Hart].
Qed.

(** C5.  A run of [track_mlflow] that returns has logged the model once,
    under the artifact path [model]; it is registered under the best
    model's name exactly when the scheme of the tracking URI is not
    [file], and logged without a registered name exactly when it is. *)
Theorem track_mlflow_registers_unless_file_store
    best_model train_metrics test_metrics self w u self' w' :
  track_mlflow best_model train_metrics test_metrics (self, w) = (Ok u, (self', w')) ->
  exists name registered events,
    best_model_name self = Some name
    /\ tracking w' = tracking w ++ events
    /\ List.filter is_model events = [LogModel best_model "model" registered]
    /\ (registered = Some name <-> tracking_url_type_store w <> "file")
    /\ (registered = None <-> tracking_url_type_store w = "file").
Proof.
  intros Hrun.
  apply track_mlflow_Ok_inv in Hrun as (name & w1 & Hname & _ & [= -> ->] & _ & Hsent & _).
  exists name, (registered_name (tracking_url_type_store w) name).
  eexists. split; [assumption |]. split; [exact Hsent |]. split; [reflexivity |].
  unfold registered_name.
  destruct (String.eqb_spec (tracking_url_type_store w) "file") as [-> | Hne]; cbn.
  - split; split; congruence.
  - split; split; congruence.
Qed.

(** C8.  A run of [track_mlflow] that returns has opened one run, named
    after the best model, has set two tags, the model's name and the
    author, and has logged six metrics: f1, precision and recall of the
    train bundle, then of the test bundle. *)
Theorem track_mlflow_logs_one_run_two_tags_six_metrics
    best_model train_metrics test_metrics self w u self' w' :
  track_mlflow best_model train_metrics test_metrics (self, w) = (Ok u, (self', w')) ->
  exists name events,
    best_model_name self = Some name
    /\ tracking w' = tracking w ++ events
    /\ List.filter is_run_start events = [StartRun (name +:+ "_experiment")]
    /\ List.filter is_tag events = [SetTag "model_name" name; SetTag "author" "Utsav"]
    /\ List.filter is_metric events =
         [ LogMetric "train_f1_score" (f1_score train_metrics);
           LogMetric "train_precision" (precision_score train_metrics);
           LogMetric "train_recall" (recall_score train_metrics);
           LogMetric "test_f1_score" (f1_score test_metrics);
           LogMetric "test_precision" (precision_score test_metrics);
           LogMetric "test_recall" (recall_score test_metrics) ].
Proof.
  intros Hrun.
  apply track_mlflow_Ok_inv in Hrun as (name & w1 & Hname & _ & [= -> ->] & _ & Hsent & _).
  exists name. eexists. split; [assumption |]. split; [exact Hsent |].
  repeat split; reflexivity.
Qed.


End TrainerProperties.

(** ** The order of calls, and where exceptions come from *)

Section Visits.
Context `{Collaborators}.

Lemma caused_by_app (before passed : list site) (e : exn) :
  caused_by passed e -> caused_by (before ++ passed) e.
Proof.
  intros [(s & Hs & Hf) | Hown]; [left | now right].
  exists s. split; [apply in_or_app; now right | assumption].
Qed.

Lemma caused_by_own (passed : list site) (cls : exc_class) (msg : string) :
  is_Exception (PyErr cls msg) = true -> caused_by passed (PyErr cls msg).
Proof. intros He. right. eauto. Qed.

Lemma unfaulted_app (s1 s2 : list site) :
  unfaulted s1 -> unfaulted s2 -> unfaulted (s1 ++ s2).
Proof. unfold unfaulted. intros H1 H2. apply Forall_app. auto. Qed.

Lemma visits_bind {A B} (s1 s2 : list site) (m : M state A) (k : A -> M state B) :
  visits s1 m -> (forall a, visits s2 (k a)) -> visits (s1 ++ s2) (bind m k).
Proof.
  intros Hm Hk st r st'. unfold bind.
  destruct (m st) as [[a|e] st1] eqn:Hrun.
  - intros Hrest.
    destruct (Hm _ _ _ Hrun) as (p1 & Hc1 & Hsub1 & -> & Hu1).
    destruct (Hk a _ _ _ Hrest) as (p2 & Hc2 & Hsub2 & Hr).
    exists (s1 ++ p2). split; [| split].
    + now rewrite Hc2, Hc1, app_assoc.
    + now apply sublist_app.
    + destruct r as [b|e].
      * destruct Hr as (-> & Hu2). split; [reflexivity | now apply unfaulted_app].
      * now apply caused_by_app.
  - intros [= <- <-].
    destruct (Hm _ _ _ Hrun) as (p1 & Hc1 & Hsub1 & Hcause).
    exists p1. split; [assumption |]. split; [| assumption].
    now apply sublist_inserts_r.
Qed.

(** A step that makes no call: it keeps the record of calls and raises
    built-in errors only. *)
Lemma visits_silent {A} (m : M state A) :
  (forall st r st', m st = (r, st') ->
     calls (snd st') = calls (snd st) /\ raises_own_errors_only r) ->
  visits [] m.
Proof.
  intros Hm st r st' Hrun. destruct (Hm _ _ _ Hrun) as (Hc & Hr).
  exists []. split; [now rewrite app_nil_r |]. split; [constructor |].
  destruct r as [a|e]; [split; [reflexivity | constructor] |].
  right. now apply Hr.
Qed.

Lemma visits_ret {A} (a : A) : visits [] (ret a).
Proof.
  apply visits_silent. intros st r st' [= <- <-]. split; [reflexivity | discriminate].
Qed.

Lemma visits_pure {A} (r : result A) :
  raises_own_errors_only r -> visits [] (pure r).
Proof.
  intros Hr. apply visits_silent. intros st r' st' [= <- <-]. auto.
Qed.

Lemma visits_get_self : visits [] get_self.
Proof.
  apply visits_silent. intros st r st' [= <- <-]. split; [reflexivity | discriminate].
Qed.

Lemma visits_set_best_model_name (name : string) : visits [] (set_best_model_name name).
Proof.
  apply visits_silent. intros [self w] r st' [= <- <-].
  split; [reflexivity | discriminate].
Qed.

Lemma visits_get_best_model_name : visits [] get_best_model_name.
Proof.
  apply visits_silent. intros [self w] r st'. unfold get_best_model_name. cbn.
  destruct (best_model_name self); intros [= <- <-].
  - split; [reflexivity | discriminate].
  - split; [reflexivity |]. intros e [= <-]. eauto.
Qed.

Lemma visits_getenv (k : string) : visits [] (in_world (getenv k)).
Proof.
  apply visits_silent. intros [self w] r st' [= <- <-].
  split; [reflexivity | discriminate].
Qed.

(** A call: the work behind it adds nothing to the record and raises
    built-in errors only. *)
Lemma visits_external {A} (s : site) (work : M world A) :
  (forall w r w', work w = (r, w') ->
     calls w' = calls w /\ raises_own_errors_only r) ->
  visits [s] (external s work).
Proof.
  intros Hwork [self w] r st'. unfold external.
  destruct (fault s) as [e|] eqn:Hfault.
  - intros [= <- <-]. exists [s]. split; [reflexivity |].
    split; [reflexivity |]. left. exists s. split; [now left | assumption].
  - destruct (work (enter s w)) as [r1 w1] eqn:Hrun. intros [= <- <-].
    destruct (Hwork _ _ _ Hrun) as (Hc & Hr).
    exists [s]. split; [cbn; now rewrite Hc |]. split; [reflexivity |].
    destruct r1 as [a|e].
    + split; [reflexivity | now repeat constructor].
    + right. now apply Hr.
Qed.

Lemma visits_mlflow_call (s : site) (ev : mlflow_event) : visits [s] (mlflow_call s ev).
Proof.
  apply visits_external. intros w r w' [= <- <-]. split; [reflexivity | discriminate].
Qed.

Lemma visits_with_start_run (sites : list site) (run_name : string) (body : M state unit) :
  visits sites body ->
  visits (at_start_run :: sites ++ [at_end_run]) (with_start_run run_name body).
Proof.
  intros Hbody. unfold with_start_run.
  change (at_start_run :: sites ++ [at_end_run])
    with ([at_start_run] ++ (sites ++ [at_end_run])).
  apply visits_bind; [apply visits_mlflow_call |]. intros _ st r st'.
  destruct (body st) as [[u|e] st1] eqn:Hrun.
  - intros Hend.
    destruct (Hbody _ _ _ Hrun) as (p1 & Hc1 & _ & -> & Hu1).
    destruct (visits_mlflow_call _ _ _ _ _ Hend) as (p2 & Hc2 & Hsub2 & Hr).
    exists (sites ++ p2). split; [now rewrite Hc2, Hc1, app_assoc |].
    split; [now apply sublist_app |].
    destruct r as [a|e].
    + destruct Hr as (-> & Hu2). split; [reflexivity | now apply unfaulted_app].
    + now apply caused_by_app.
  - destruct (Hbody _ _ _ Hrun) as (p1 & Hc1 & Hsub1 & Hcause).
    destruct (mlflow_call at_end_run (EndRun FAILED) st1) as [[u|e'] st2] eqn:Hend;
      intros [= <- <-];
      destruct (visits_mlflow_call _ _ _ _ _ Hend) as (p2 & Hc2 & Hsub2 & Hr);
      (exists (p1 ++ p2); split; [now rewrite Hc2, Hc1, app_assoc |];
       split; [now apply sublist_app |]).
    + destruct Hcause as [(s & Hs & Hf) | Hown]; [left | now right].
      exists s. split; [apply in_or_app; now left | assumption].
    + now apply caused_by_app.
Qed.

End Visits.

Section VisitsOfTheMethods.
Context `{Collaborators}.

Lemma visits_eq {A} (sites sites' : list site) (m : M state A) :
  visits sites m -> sites = sites' -> visits sites' m.
Proof. now intros Hm <-. Qed.

Ltac visits_step :=
  first
    [ apply visits_mlflow_call
    | apply visits_get_best_model_name
    | apply visits_get_self
    | apply visits_set_best_model_name
    | apply visits_getenv
    | apply visits_ret
    | eapply visits_with_start_run
    | eapply visits_bind; [| intros ?] ].

Lemma silent_work_Ok {A} (a : A) (w : world) r w' :
  (Ok a, w) = (r, w') -> calls w' = calls w /\ raises_own_errors_only r.
Proof. intros [= <- <-]. split; [reflexivity | discriminate]. Qed.

Lemma track_mlflow_visits best_model train_metrics test_metrics :
  visits track_sites (track_mlflow best_model train_metrics test_metrics).
Proof.
  unfold track_mlflow. eapply visits_eq.
  - repeat first
      [ visits_step
      | apply visits_external; intros w r w'; apply silent_work_Ok
      | match goal with
        | |- visits _ (if ?b then _ else _) => destruct b
        end ].
  - reflexivity.
Qed.

Lemma load_object_silent (file_path : string) w r w' :
  load_object file_path w = (r, w') -> calls w' = calls w /\ raises_own_errors_only r.
Proof.
  unfold load_object. destruct (files w !! file_path); intros [= <- <-].
  - split; [reflexivity | discriminate].
  - split; [reflexivity |]. intros e [= <-]. eauto.
Qed.

Lemma load_numpy_array_data_silent (file_path : string) w r w' :
  load_numpy_array_data file_path w = (r, w') ->
  calls w' = calls w /\ raises_own_errors_only r.
Proof.
  unfold load_numpy_array_data.
  destruct (files w !! file_path) as [[a|e|o|p m]|]; intros [= <- <-];
    (split; [reflexivity |]); try discriminate; intros e' [= <-]; eauto.
Qed.

Lemma save_object_silent (file_path : string) (obj : pyobj) w r w' :
  save_object file_path obj w = (r, w') -> calls w' = calls w /\ raises_own_errors_only r.
Proof. intros [= <- <-]. split; [reflexivity | discriminate]. Qed.

Lemma makedirs_silent (d : string) w r w' :
  makedirs_exist_ok d w = (r, w') -> calls w' = calls w /\ raises_own_errors_only r.
Proof.
  unfold makedirs_exist_ok. destruct (String.eqb d ""); intros [= <- <-].
  - split; [reflexivity |]. intros e [= <-]. eauto.
  - split; [reflexivity | discriminate].
Qed.

Lemma persist_and_package_visits best_model train_metric test_metric :
  visits persist_sites (persist_and_package best_model train_metric test_metric).
Proof.
  unfold persist_and_package. eapply visits_eq.
  - repeat first
      [ visits_step
      | apply visits_external; intros w r w';
        first [ apply load_object_silent | apply save_object_silent
              | apply makedirs_silent ] ].
  - reflexivity.
Qed.

Lemma pure_silent {A} (r : result A) (w : world) r' w' :
  raises_own_errors_only r ->
  pure r w = (r', w') -> calls w' = calls w /\ raises_own_errors_only r'.
Proof. intros Hr [= <- <-]. auto. Qed.

Lemma train_model_with_visits tracker (tracker_sites : list site)
      X_train y_train X_test y_test :
  (forall best_model train_metric test_metric,
     visits tracker_sites (tracker best_model train_metric test_metric)) ->
  visits
    ([at_evaluate_models; at_predict_train; at_score_train; at_predict_test; at_score_test]
     ++ tracker_sites ++ persist_sites)
    (train_model_with tracker X_train y_train X_test y_test).
Proof.
  intros Htracker. unfold train_model_with. eapply visits_eq.
  - repeat first
      [ apply Htracker
      | apply persist_and_package_visits
      | visits_step
      | apply visits_pure;
        first [ apply select_best_raises | apply dict_getitem_raises ]
      | apply visits_external; intros w r w';
        first [ apply silent_work_Ok
              | apply pure_silent; apply evaluate_models_raises ]
      | match goal with
        | |- visits _ (match ?p with _ => _ end) => destruct p
        end ].
  - reflexivity.
Qed.

Lemma initiate_model_trainer_body_visits :
  visits pipeline initiate_model_trainer_body.
Proof.
  unfold initiate_model_trainer_body. eapply visits_eq.
  - repeat first
      [ apply (train_model_with_visits track_mlflow track_sites);
        apply track_mlflow_visits
      | visits_step
      | apply visits_pure; apply column_last_raises
      | apply visits_external; intros w r w'; apply load_numpy_array_data_silent ].
  - reflexivity.
Qed.

(** C2, as amended.  [initiate_model_trainer] either returns the artifact
    of a run in which every call site of the pipeline was passed and none
    faulted, or raises.  What it raises comes from the exception [e] that
    left the [try] block, which a collaborator raised at a site passed or
    which is a built-in error of an operation of this file: when [e] is an
    instance of [Exception] it is [NetworkSecurityException(e, sys)], and
    when it is not (an interrupt, an exit) it is [e] itself, unwrapped, and
    then a collaborator has raised it.  No call site is passed twice, and
    nothing is returned after a failure. *)
Theorem initiate_model_trainer_wraps_every_Exception (st : state) :
  exists passed,
    calls (snd (snd (initiate_model_trainer st))) = calls (snd st) ++ passed
    /\ sublist passed pipeline
    /\ NoDup passed
    /\ match initiate_model_trainer st with
       | (Ok artifact, st') =>
           initiate_model_trainer_body st = (Ok artifact, st')
           /\ passed = pipeline
           /\ unfaulted pipeline
       | (Raise x, st') =>
           exists e,
             initiate_model_trainer_body st = (Raise e, st')
             /\ caused_by passed e
             /\ (is_Exception e = true -> x = NetworkSecurityException e sys)
             /\ (is_Exception e = false ->
                 x = e /\ exists s, In s passed /\ fault s = Some e)
       end.
Proof.
  unfold initiate_model_trainer, try_except_Exception.
  destruct (initiate_model_trainer_body st) as [r st'] eqn:Hbody.
  destruct (initiate_model_trainer_body_visits _ _ _ Hbody)
    as (passed & Hcalls & Hsub & Hr).
  assert (Hnodup : NoDup passed).
  { eapply sublist_NoDup; [| exact Hsub]. unfold pipeline.
    apply NoDup_ListNoDup. repeat constructor; cbn; intuition discriminate. }
  exists passed. destruct r as [artifact|e].
  - destruct Hr as (-> & Hu). cbn [snd]. repeat split; assumption.
  - assert (Hout : is_Exception e = false -> exists s, In s passed /\ fault s = Some e).
    { intros He. destruct Hr as [Hsite | (cls & msg & _ & Hown)]; [exact Hsite | congruence]. }
    destruct (is_Exception e) eqn:He; cbn [snd].
    + do 3 (split; [assumption |]). exists e.
      split; [reflexivity |]. split; [assumption |].
      split; [intros _; reflexivity | congruence].
    + do 3 (split; [assumption |]). exists e.
      split; [reflexivity |]. split; [assumption |].
      split; [congruence | intros _; split; [reflexivity | now apply Hout]].
Qed.

End VisitsOfTheMethods.

(** ** The feature and label split *)

Section Split.
Context `{Collaborators}.

Lemma split_row (n : nat) (r : list float) :
  length r = n -> (0 < n)%nat ->
  with_label (firstn (n - 1) r) (nth (n - 1) r 0%Q) = r.
Proof.
  revert n. induction r as [|x r IH]; intros n Hlen Hpos; cbn in Hlen; [lia |].
  destruct r as [|y r'].
  - subst n. reflexivity.
  - subst n. cbn [length]. replace (S (S (length r')) - 1)%nat with (S (length r')) by lia.
    cbn [firstn nth]. unfold with_label in *. cbn [app]. f_equal.
    specialize (IH (S (length r')) eq_refl ltac:(lia)).
    replace (S (length r') - 1)%nat with (length r') in IH by lia.
    exact IH.
Qed.

Lemma columns_split (a : ndarray) :
  well_shaped a -> (0 < ncols a)%nat ->
  exists y, column_last a = Ok y /\ splits_into a (columns_before_last a) y.
Proof.
  intros Hshape Hpos. unfold column_last.
  destruct (Nat.eqb_spec (ncols a) 0) as [Hz | _]; [lia |].
  eexists. split; [reflexivity |]. unfold splits_into, columns_before_last.
  cbn [rows ncols]. unfold well_shaped in *.
  split; [| split; [| split]].
  - induction (rows a) as [|r rest IH]; [reflexivity |].
    apply Forall_cons in Hshape as (Hr & Hrest). cbn [map zip_with].
    f_equal; [symmetry; exact (split_row _ _ Hr Hpos) | now apply IH].
  - now rewrite !length_map.
  - reflexivity.
  - apply Forall_map. eapply Forall_impl; [exact Hshape |].
    intros r Hr. cbv beta in Hr. cbv beta. rewrite length_firstn. cbn [ncols]. lia.
Qed.

(** C6.  When both arrays load, each a rectangular array with at least
    one column, [initiate_model_trainer] hands [train_model] a split of
    each of them: the labels are the array's last column, the features are
    the columns before it, row by row, for the train and for the test
    array. *)
Theorem initiate_model_trainer_splits_off_last_column
    (self : ModelTrainer) (w : world) (train_arr test_arr : ndarray) :
  fault at_load_train = None ->
  fault at_load_test = None ->
  files w !! transformed_train_file_path (data_transformation_artifact self)
    = Some (ONdarray train_arr) ->
  files w !! transformed_test_file_path (data_transformation_artifact self)
    = Some (ONdarray test_arr) ->
  well_shaped train_arr -> (0 < ncols train_arr)%nat ->
  well_shaped test_arr -> (0 < ncols test_arr)%nat ->
  exists X_train y_train X_test y_test,
    initiate_model_trainer (self, w) =
      try_except_Exception (train_model X_train y_train X_test y_test)
        (fun e => NetworkSecurityException e sys)
        (self, enter at_load_test (enter at_load_train w))
    /\ splits_into train_arr X_train y_train
    /\ splits_into test_arr X_test y_test.
Proof.
  intros Hf1 Hf2 Htrain Htest Hshape1 Hpos1 Hshape2 Hpos2.
  destruct (columns_split train_arr Hshape1 Hpos1) as (y_train & Hy1 & Hsplit1).
  destruct (columns_split test_arr Hshape2 Hpos2) as (y_test & Hy2 & Hsplit2).
  exists (columns_before_last train_arr), y_train, (columns_before_last test_arr), y_test.
  split; [| split; assumption].
  unfold initiate_model_trainer, try_except_Exception, initiate_model_trainer_body.
  unfold bind at 1. unfold get_self at 1. cbn [fst].
  unfold bind at 1. unfold external at 1. rewrite Hf1.
  unfold load_numpy_array_data at 1. cbn [files enter]. rewrite Htrain.
  unfold bind at 1. unfold external at 1. rewrite Hf2.
  unfold load_numpy_array_data at 1. cbn [files enter]. rewrite Htest.
  unfold bind at 1. unfold pure at 1. rewrite Hy1.
  unfold bind at 1. unfold pure at 1. rewrite Hy2.
  reflexivity.
Qed.

End Split.

(** ** The two tables *)

(** C7.  The candidate set and the hyperparameter grid are keyed by the same
    names, each name once on either side: every candidate has a grid (the
    one of Logistic Regression is empty) and every grid belongs to a
    candidate. *)
Theorem candidate_names_match_grid_names :
  List.NoDup (dict_keys models)
  /\ List.NoDup (dict_keys params)
  /\ Permutation (dict_keys models) (dict_keys params)
  /\ (forall name, In name (dict_keys models) <-> In name (dict_keys params))
  /\ (forall name, In name (dict_keys models) -> exists g, dict_getitem params name = Ok g)
  /\ (forall name, In name (dict_keys params) -> exists e, dict_getitem models name = Ok e)
  /\ dict_getitem params "Logistic Regression" = Ok [].
Proof.
  assert (Hm : List.NoDup (dict_keys models)).
  { cbn. repeat constructor; cbn; intuition discriminate. }
  assert (Hp : List.NoDup (dict_keys params)).
  { cbn. repeat constructor; cbn; intuition discriminate. }
  assert (Hsame : forall name, In name (dict_keys models) <-> In name (dict_keys params)).
  { intros name. cbn. intuition. }
  split; [assumption |]. split; [assumption |]. split.
  { apply NoDup_Permutation; [now apply NoDup_ListNoDup | now apply NoDup_ListNoDup |].
    intros name. rewrite !list_elem_of_In. apply Hsame. }
  split; [assumption |]. split; [| split; [| reflexivity]].
  - intros name Hin. apply dict_getitem_key. now apply Hsame.
  - intros name Hin. apply dict_getitem_key. now apply Hsame.
Qed.

(** ** The properties at work on a concrete run *)

Section Runs.
Import Scenario Edge.

Lemma module_load_writes_credentials_back_witness :
  let w' := snd (@module_load remote world0) in
  @module_load remote world0 = (Ok tt, w')
  /\ exists uri user pass,
       environ_writes w' =
         [ (MLFLOW_TRACKING_URI, uri); (MLFLOW_TRACKING_USERNAME, user);
           (MLFLOW_TRACKING_PASSWORD, pass) ]
       /\ environ w' !! MLFLOW_TRACKING_URI = Some uri
       /\ environ w' !! MLFLOW_TRACKING_USERNAME = Some user
       /\ environ w' !! MLFLOW_TRACKING_PASSWORD = Some pass.
Proof.
  intros w'.
  assert (Hrun : @module_load remote world0 = (Ok tt, w')) by (vm_compute; reflexivity).
  split; [exact Hrun |].
  destruct (@module_load_writes_credentials_back remote world0 w' Hrun)
    as (uri & user & pass & _ & _ & _ & Hwrites & Huri & Huser & Hpass & _).
  exists uri, user, pass. repeat split; assumption.
Defined.

(** C3 as stated fails: here all three credentials are present, the
    password being the empty string, and importing the module raises. *)
Lemma credentials_present_but_empty_raises :
  (forall k, In k credential_names -> is_Some (environ world_empty_password !! k))
  /\ fst (@module_load remote world_empty_password)
     = Raise (PyErr EnvironmentError missing_credentials_message).
Proof.
  split.
  - intros k [<- | [<- | [<- | []]]]; vm_compute; eauto.
  - vm_compute. reflexivity.
Qed.

Lemma train_model_selects_first_maximum_witness :
  let run := @train_model remote X y X y (trainer, world0) in
  @fault remote at_evaluate_models = None
  /\ exists fitted report score name i,
       @evaluate_models remote X y X y models params = Ok (fitted, report)
       /\ dict_keys report = dict_keys models
       /\ select_best report = Ok (score, name)
       /\ best_model_name (fst (snd run)) = Some name
       /\ nth_error (dict_keys models) i = Some name
       /\ first_maximum report i name score.
Proof.
  intros run. split; [reflexivity |].
  apply (@train_model_selects_first_maximum remote X y X y (trainer, world0)
           (snd run) (fst run)); [| reflexivity].
  subst run. now destruct (@train_model remote X y X y (trainer, world0)).
Defined.

(** Decision Tree and Gradient Boosting both score 0.95 in this run; the
    one declared first is selected. *)
Example tie_goes_to_the_first_declared :
  exists fitted,
    @evaluate_models remote X y X y models params =
      Ok (fitted,
          [ ("Random Forest", 9 # 10); ("Decision Tree", 95 # 100);
            ("Gradient Boosting", 19 # 20); ("Logistic Regression", 8 # 10);
            ("AdaBoost", 7 # 10) ])
    /\ best_model_name (fst (snd (@train_model remote X y X y (trainer, world0))))
       = Some "Decision Tree".
Proof. eexists. split; vm_compute; reflexivity. Qed.

Lemma train_model_serializes_bundle_then_model_witness :
  let st' := snd (@train_model remote X y X y (trainer, world0)) in
  (exists art,
     @train_model remote X y X y (trainer, world0) = (Ok art, (fst st', snd st')))
  /\ exists preprocessor best_model,
       serialized (snd st') =
         [ ("artifacts/model.pkl", NetworkModel preprocessor best_model);
           (final_model_path, OEstimator best_model) ]
       /\ files (snd st') !! final_model_path = Some (OEstimator best_model).
Proof.
  intros st'.
  assert (Hrun : exists art,
             @train_model remote X y X y (trainer, world0) = (Ok art, (fst st', snd st')))
    by (eexists; vm_compute; reflexivity).
  split; [exact Hrun |].
  destruct Hrun as (art & Hrun).
  destruct (@train_model_serializes_bundle_then_model remote X y X y _ _ art _ _ Hrun)
    as (fitted & report & name & best_model & preprocessor & w_loaded
        & _ & _ & _ & _ & _ & _ & Hlog & Hbare & _).
  exists preprocessor, best_model. split; assumption.
Defined.

(** C4 as stated fails: with the bundle configured to go to
    [final_model/model.pkl], the fixed path is the configured path, both
    serializations go to it, the second overwrites the first, and the file
    the artifact refers to holds the bare model. *)
Lemma bundle_overwritten_when_paths_coincide :
  let run := @train_model remote X y X y (trainer_same_path, world0) in
  exists art best_model,
    fst run = Ok art
    /\ config_trained_model_file_path (model_trainer_config trainer_same_path)
       = final_model_path
    /\ trained_model_file_path art = final_model_path
    /\ files (snd (snd run)) !! final_model_path = Some (OEstimator best_model)
    /\ size (files world0) = 3%nat
    /\ size (files (snd (snd run))) = 4%nat
    /\ map fst (serialized (snd (snd run))) = [final_model_path; final_model_path].
Proof.
  intros run. do 2 eexists.
  split; [vm_compute; reflexivity |].
  split; [reflexivity |].
  split; [reflexivity |].
  split; [vm_compute; reflexivity |].
  split; [vm_compute; reflexivity |].
  split; vm_compute; reflexivity.
Qed.

Lemma track_mlflow_registers_unless_file_store_witness :
  let st' := snd (@track_mlflow local_store (fitted (new_estimator DecisionTreeClassifier []))
                    metrics metrics (trainer_named, world0)) in
  @track_mlflow local_store (fitted (new_estimator DecisionTreeClassifier []))
    metrics metrics (trainer_named, world0) = (Ok tt, (fst st', snd st'))
  /\ exists name registered events,
       best_model_name trainer_named = Some name
       /\ tracking (snd st') = tracking world0 ++ events
       /\ List.filter is_model events =
            [LogModel (fitted (new_estimator DecisionTreeClassifier [])) "model" registered]
       /\ (registered = Some name <-> @tracking_url_type_store local_store world0 <> "file")
       /\ (registered = None <-> @tracking_url_type_store local_store world0 = "file").
Proof.
  intros st'. split; [vm_compute; reflexivity |].
  apply (@track_mlflow_registers_unless_file_store local_store
           (fitted (new_estimator DecisionTreeClassifier [])) metrics metrics
           trainer_named world0 tt (fst st') (snd st')).
  vm_compute. reflexivity.
Defined.

Lemma track_mlflow_logs_one_run_two_tags_six_metrics_witness :
  let st' := snd (@track_mlflow remote (fitted (new_estimator DecisionTreeClassifier []))
                    metrics metrics (trainer_named, world0)) in
  @track_mlflow remote (fitted (new_estimator DecisionTreeClassifier []))
    metrics metrics (trainer_named, world0) = (Ok tt, (fst st', snd st'))
  /\ exists name events,
       best_model_name trainer_named = Some name
       /\ tracking (snd st') = tracking world0 ++ events
       /\ List.filter is_run_start events = [StartRun (name +:+ "_experiment")]
       /\ List.filter is_tag events = [SetTag "model_name" name; SetTag "author" "Utsav"]
       /\ List.filter is_metric events =
            [ LogMetric "train_f1_score" (f1_score metrics);
              LogMetric "train_precision" (precision_score metrics);
              LogMetric "train_recall" (recall_score metrics);
              LogMetric "test_f1_score" (f1_score metrics);
              LogMetric "test_precision" (precision_score metrics);
              LogMetric "test_recall" (recall_score metrics) ].
Proof.
  intros st'. split; [vm_compute; reflexivity |].
  apply (@track_mlflow_logs_one_run_two_tags_six_metrics remote
           (fitted (new_estimator DecisionTreeClassifier [])) metrics metrics
           trainer_named world0 tt (fst st') (snd st')).
  vm_compute. reflexivity.
Defined.



(** C2 as stated fails: here the user interrupts the fit.  The stage
    raises [KeyboardInterrupt], which is no instance of [Exception], and
    it leaves [initiate_model_trainer] as it is, not wrapped. *)
Lemma interrupted_fit_is_not_wrapped :
  In at_evaluate_models pipeline
  /\ @fault interrupted at_evaluate_models = Some (PyErr KeyboardInterrupt "")
  /\ fst (@initiate_model_trainer interrupted (trainer, world0))
     = Raise (PyErr KeyboardInterrupt "")
  /\ forall e details,
       fst (@initiate_model_trainer interrupted (trainer, world0))
       <> Raise (NetworkSecurityException e details).
Proof.
  split; [cbn; auto |]. split; [reflexivity |].
  assert (Hrun : fst (@initiate_model_trainer interrupted (trainer, world0))
                 = Raise (PyErr KeyboardInterrupt ""))
    by (vm_compute; reflexivity).
  split; [exact Hrun |]. intros e details. rewrite Hrun. discriminate.
Qed.

Lemma initiate_model_trainer_splits_off_last_column_witness :
  well_shaped table
  /\ exists X_train y_train X_test y_test,
       @initiate_model_trainer remote (trainer, world0) =
         try_except_Exception (@train_model remote X_train y_train X_test y_test)
           (fun e => NetworkSecurityException e sys)
           (trainer, enter at_load_test (enter at_load_train world0))
       /\ splits_into table X_train y_train
       /\ splits_into table X_test y_test.
Proof.
  assert (Hshape : well_shaped table) by (repeat constructor).
  split; [exact Hshape |].
  apply (@initiate_model_trainer_splits_off_last_column remote trainer world0 table table);
    first [ reflexivity | exact Hshape | cbn; lia | vm_compute; reflexivity ].
Defined.

End Runs.

(** * Further properties *)

(** ** When the methods return *)

Section Returns.
Context `{Collaborators}.

(** [track_mlflow] returns exactly when [best_model_name] has been assigned
    and none of its fourteen calls raises. *)
Theorem track_mlflow_returns_iff best_model train_metrics test_metrics self w :
  (exists st', track_mlflow best_model train_metrics test_metrics (self, w) = (Ok tt, st'))
  <-> (exists name, best_model_name self = Some name) /\ unfaulted track_sites.
Proof.
  split.
  - intros (st' & Hrun).
    apply track_mlflow_Ok_inv in Hrun as (name & w' & Hname & Hsites & _). eauto.
  - intros ((name & Hname) & Hsites).
    destruct (track_mlflow_run best_model train_metrics test_metrics self w name Hname Hsites)
      as (w' & Hrun).
    eauto.
Qed.

(** Forward through [train_model]: selection cannot fail on the two
    tables of this file, so without faults, with the preprocessor on file
    and a directory to make, the method returns. *)
Lemma train_model_run X_train y_train X_test y_test self w :
  unfaulted train_model_sites ->
  is_Some (files w !! transformed_object_file_path (data_transformation_artifact self)) ->
  os_path_dirname (config_trained_model_file_path (model_trainer_config self)) <> "" ->
  exists art st', train_model X_train y_train X_test y_test (self, w) = (Ok art, st').
Proof.
  intros Hsites (preprocessor & Hpre) Hdir. unfold train_model_sites, unfaulted in Hsites.
  rewrite !Forall_app in Hsites. destruct Hsites as (Hfirst & Htrack & Hpersist).
  destruct (evaluate_models_returns X_train y_train X_test y_test)
    as (fitted & report & Heval).
  destruct (evaluate_models_keys _ _ _ _ _ _ _ _ Heval) as (Hkf & Hkr).
  destruct (select_best_spec report) as (score & name & i & Hsel & Hi & _).
  { intros ->. discriminate Hkr. }
  destruct (dict_getitem_key fitted name) as (best_model & Hget).
  { rewrite Hkf, <- Hkr. eapply nth_error_In. exact Hi. }
  unfold train_model.
  rewrite (train_model_with_run _ _ _ _ _ _ _ _ _ _ _ _ Hfirst Heval Hsel Hget).
  set (train_metric := get_classification_score y_train (sk_predict best_model X_train)).
  set (test_metric := get_classification_score y_test (sk_predict best_model X_test)).
  destruct (track_mlflow_run best_model train_metric test_metric
              (named self name) (before_tracking w) name eq_refl Htrack) as (w1 & Htracked).
  destruct (track_mlflow_keeps _ _ _ _ _ _ _ _ Htracked) as (_ & _ & _ & Hfiles & _).
  destruct (persist_and_package_run best_model train_metric test_metric
              (named self name) w1 preprocessor Hpersist) as (w2 & Hrun & _).
  { now rewrite Hfiles. }
  { exact Hdir. }
  unfold bind at 1. rewrite Htracked. eauto.
Qed.

(** [train_model] returns an artifact exactly when none of its calls
    raises, the preprocessor file exists, and the configured path has a
    directory part.  Nothing else can make it fail: [max], [index] and the
    two dictionary lookups always succeed on the tables of lines 48 to 73. *)
Theorem train_model_returns_iff X_train y_train X_test y_test self w :
  (exists art st', train_model X_train y_train X_test y_test (self, w) = (Ok art, st'))
  <-> unfaulted train_model_sites
      /\ is_Some (files w !! transformed_object_file_path (data_transformation_artifact self))
      /\ os_path_dirname (config_trained_model_file_path (model_trainer_config self)) <> "".
Proof.
  split.
  - intros (art & st' & Hrun). unfold train_model in Hrun.
    apply train_model_with_Ok_inv in Hrun
      as (fitted & report & score & name & best_model & Hfirst & _ & _ & _
          & st_tracked & Htrack & Hpersist).
    apply track_mlflow_Ok_inv in Htrack
      as (_ & w1 & _ & Htracked & -> & (_ & _ & Hfiles & _) & _).
    apply persist_and_package_Ok_inv in Hpersist
      as (preprocessor & w2 & Hpersisted & Hdir & Hpre & _).
    split; [| split].
    + unfold train_model_sites.
      apply unfaulted_app; [exact Hfirst | apply unfaulted_app; assumption].
    + rewrite Hfiles in Hpre. eauto.
    + exact Hdir.
  - intros (Hsites & Hpre & Hdir). now apply train_model_run.
Qed.

Lemma column_last_returns_iff (a : ndarray) :
  (exists y, column_last a = Ok y) <-> (0 < ncols a)%nat.
Proof.
  unfold column_last. destruct (Nat.eqb_spec (ncols a) 0) as [Hz | Hnz]; split.
  - intros (y & Hy). discriminate.
  - lia.
  - lia.
  - eauto.
Qed.

Lemma try_except_Ok_iff {S A} (body : M S A) (handler : exn -> exn) st a st' :
  try_except_Exception body handler st = (Ok a, st') <-> body st = (Ok a, st').
Proof.
  unfold try_except_Exception. destruct (body st) as [[a0|e] st0].
  - reflexivity.
  - destruct (is_Exception e); split; discriminate.
Qed.

(** [initiate_model_trainer] returns an artifact exactly when no call of the
    pipeline raises, both files hold an array with at least one column, the
    preprocessor file exists, and the configured path has a directory
    part. *)
Theorem initiate_model_trainer_returns_iff self w :
  (exists art st', initiate_model_trainer (self, w) = (Ok art, st'))
  <-> unfaulted pipeline
      /\ (exists a, files w !! transformed_train_file_path (data_transformation_artifact self)
                     = Some (ONdarray a) /\ (0 < ncols a)%nat)
      /\ (exists b, files w !! transformed_test_file_path (data_transformation_artifact self)
                     = Some (ONdarray b) /\ (0 < ncols b)%nat)
      /\ is_Some (files w !! transformed_object_file_path (data_transformation_artifact self))
      /\ os_path_dirname (config_trained_model_file_path (model_trainer_config self)) <> "".
Proof.
  change pipeline with ([at_load_train; at_load_test] ++ train_model_sites).
  split.
  - intros (art & st' & Hrun). unfold initiate_model_trainer in Hrun.
    apply try_except_Ok_iff in Hrun. unfold initiate_model_trainer_body in Hrun.
    apply bind_Ok_inv in Hrun as (self0 & st1 & [= <- <-] & Hrun).
    apply bind_Ok_inv in Hrun as (train_arr & st1 & Hstep & Hrun).
    apply external_Ok_inv in Hstep as (Hsite1 & w1 & Hload1 & ->).
    unfold load_numpy_array_data in Hload1. cbn [files enter] in Hload1.
    destruct (files w !! transformed_train_file_path _) as [[a| | |]|] eqn:Htrain;
      try discriminate.
    injection Hload1 as -> <-.
    apply bind_Ok_inv in Hrun as (test_arr & st1 & Hstep & Hrun).
    apply external_Ok_inv in Hstep as (Hsite2 & w1 & Hload2 & ->).
    unfold load_numpy_array_data in Hload2. cbn [files enter] in Hload2.
    destruct (files w !! transformed_test_file_path _) as [[b| | |]|] eqn:Htest;
      try discriminate.
    injection Hload2 as -> <-.
    apply bind_Ok_inv in Hrun as (y_train & st1 & Hstep & Hrun).
    apply pure_Ok_inv in Hstep as (Hy1 & ->).
    apply bind_Ok_inv in Hrun as (y_test & st1 & Hstep & Hrun).
    apply pure_Ok_inv in Hstep as (Hy2 & ->).
    assert (Htm : exists art st',
               train_model (columns_before_last train_arr) y_train
                 (columns_before_last test_arr) y_test
                 (self, enter at_load_test (enter at_load_train w)) = (Ok art, st'))
      by eauto.
    apply train_model_returns_iff in Htm as (Hsites & Hpre & Hdir).
    split; [| split; [| split; [| split]]].
    + apply unfaulted_app; [| exact Hsites]. repeat constructor; assumption.
    + exists train_arr. split; [reflexivity |]. apply column_last_returns_iff. eauto.
    + exists test_arr. split; [reflexivity |]. apply column_last_returns_iff. eauto.
    + exact Hpre.
    + exact Hdir.
  - intros (Hsites & (a & Htrain & Ha) & (b & Htest & Hb) & Hpre & Hdir).
    unfold unfaulted in Hsites. apply Forall_app in Hsites as (Hloads & Hsites).
    apply Forall_cons in Hloads as (Hs1 & Hloads).
    apply Forall_cons in Hloads as (Hs2 & _).
    apply column_last_returns_iff in Ha as (y_train & Hy1).
    apply column_last_returns_iff in Hb as (y_test & Hy2).
    destruct (train_model_run (columns_before_last a) y_train (columns_before_last b) y_test
                self (enter at_load_test (enter at_load_train w)) Hsites Hpre Hdir)
      as (art & st' & Hrun).
    exists art, st'. unfold initiate_model_trainer. apply try_except_Ok_iff.
    unfold initiate_model_trainer_body.
    unfold bind at 1. unfold get_self at 1. cbn [fst].
    unfold bind at 1. unfold external at 1. rewrite Hs1.
    unfold load_numpy_array_data at 1. cbn [files enter]. rewrite Htrain.
    unfold bind at 1. unfold external at 1. rewrite Hs2.
    unfold load_numpy_array_data at 1. cbn [files enter]. rewrite Htest.
    unfold bind at 1. unfold pure at 1. rewrite Hy1.
    unfold bind at 1. unfold pure at 1. rewrite Hy2.
    exact Hrun.
Qed.

End Returns.

(** ** More on the selection of lines 81 and 82 *)

Section SelectionOrder.

Lemma py_max_snoc (l : list float) (m v : float) :
  py_max l = Ok m -> py_max (l ++ [v]) = Ok (if float_gt v m then v else m).
Proof.
  destruct l as [|x rest]; [discriminate |]. cbn. intros [= <-].
  now rewrite fold_left_app.
Qed.

Lemma list_index_app_found (l k : list float) (x : float) (i : nat) :
  list_index l x = Ok i -> list_index (l ++ k) x = Ok i.
Proof.
  revert i. induction l as [|y l IH]; intros i; cbn; [discriminate |].
  destruct (float_eq y x); [auto |].
  destruct (list_index l x) as [j|]; [| discriminate].
  intros [= <-]. now rewrite (IH j eq_refl).
Qed.

Lemma list_index_snoc_new (l : list float) (x : float) :
  (forall y, In y l -> float_eq y x = false) ->
  list_index (l ++ [x]) x = Ok (length l).
Proof.
  induction l as [|y l IH]; intros Hnew; cbn.
  - assert (Hxx : float_eq x x = true) by (apply float_eq_true; reflexivity).
    now rewrite Hxx.
  - rewrite (Hnew y) by now left. rewrite IH; [reflexivity |].
    intros z Hz. apply Hnew. now right.
Qed.

Lemma select_best_Ok_inv (report : dict float) (score : float) (name : string) :
  select_best report = Ok (score, name) ->
  exists i,
    py_max (dict_values report) = Ok score
    /\ list_index (dict_values report) score = Ok i
    /\ nth_error (dict_keys report) i = Some name.
Proof.
  unfold select_best, list_getitem.
  destruct (py_max (dict_values report)) as [m|]; [| discriminate].
  destruct (list_index (dict_values report) m) as [i|] eqn:Hi; [| discriminate].
  destruct (nth_error (dict_keys report) i) as [n|] eqn:Hn; [| discriminate].
  intros [= <- <-]. exists i. auto.
Qed.

Lemma dict_values_snoc {V} (d : dict V) (k : string) (v : V) :
  dict_values (d ++ [(k, v)]) = dict_values d ++ [v].
Proof. unfold dict_values. now rewrite map_app. Qed.

Lemma dict_keys_snoc {V} (d : dict V) (k : string) (v : V) :
  dict_keys (d ++ [(k, v)]) = dict_keys d ++ [k].
Proof. unfold dict_keys. now rewrite map_app. Qed.

(** Lines 81 and 82 fail on the empty report only, with the [ValueError] of
    [max]; on any other report [index] finds the maximum and the key list
    is long enough, and the name selected is a key of the report. *)
Theorem select_best_fails_only_on_empty (report : dict float) :
  (report = []
   /\ select_best report = Raise (PyErr ValueError "max() arg is an empty sequence"))
  \/ (exists score name s,
        select_best report = Ok (score, name)
        /\ In (name, s) report
        /\ Qeq s score).
Proof.
  destruct report as [|entry rest] eqn:Hreport; [left; split; reflexivity |].
  right. rewrite <- Hreport.
  destruct (select_best_spec report) as (score & name & i & Hsel & _ & (s & Hs & Heq) & _).
  { rewrite Hreport. discriminate. }
  exists score, name, s. split; [assumption |]. split; [| assumption].
  eapply nth_error_In. exact Hs.
Qed.

(** A candidate added at the end of the report that scores no higher than
    the best so far does not change the selection, a tie included. *)
Theorem select_best_keeps_earlier_on_tie
    (report : dict float) (score : float) (name : string)
    (late_name : string) (late_score : float) :
  select_best report = Ok (score, name) ->
  Qle late_score score ->
  select_best (report ++ [(late_name, late_score)]) = Ok (score, name).
Proof.
  intros Hsel Hle. apply select_best_Ok_inv in Hsel as (i & Hmax & Hidx & Hname).
  unfold select_best. rewrite dict_values_snoc, dict_keys_snoc.
  rewrite (py_max_snoc _ _ _ Hmax).
  apply float_gt_false in Hle. rewrite Hle.
  rewrite (list_index_app_found _ _ _ _ Hidx).
  unfold list_getitem. rewrite nth_error_app1.
  - now rewrite Hname.
  - apply nth_error_Some. congruence.
Qed.

(** A candidate added at the end that scores strictly higher than every
    entry is the one selected. *)
Theorem select_best_takes_strictly_better
    (report : dict float) (late_name : string) (late_score : float) :
  (forall n s, In (n, s) report -> Qlt s late_score) ->
  select_best (report ++ [(late_name, late_score)]) = Ok (late_score, late_name).
Proof.
  intros Hlow.
  assert (Hvalues : forall v, In v (dict_values report) -> Qlt v late_score).
  { intros v Hv. unfold dict_values in Hv. apply in_map_iff in Hv as ([n s] & <- & Hin).
    exact (Hlow n s Hin). }
  assert (Hmax : py_max (dict_values report ++ [late_score]) = Ok late_score).
  { destruct (dict_values report) as [|x rest] eqn:Hv; [reflexivity |].
    destruct (py_max_nonempty (x :: rest)) as (m & Hm); [discriminate |].
    rewrite (py_max_snoc _ _ _ Hm).
    destruct (py_max_spec _ _ Hm) as (Hin & _).
    assert (Hgt : float_gt late_score m = true) by (apply float_gt_true; auto).
    now rewrite Hgt. }
  unfold select_best. rewrite dict_values_snoc, dict_keys_snoc, Hmax.
  rewrite list_index_snoc_new.
  - unfold list_getitem, dict_values, dict_keys.
    rewrite length_map, <- (length_map fst report), nth_error_app2 by lia.
    now rewrite Nat.sub_diag.
  - intros v Hv. destruct (float_eq v late_score) eqn:Heq; [| reflexivity].
    apply float_eq_true in Heq. specialize (Hvalues v Hv).
    rewrite Heq in Hvalues. destruct (Qlt_irrefl _ Hvalues).
Qed.

End SelectionOrder.

(** ** What leaves [initiate_model_trainer], and what the trainer object
    becomes *)

Section Outcomes.
Context `{Collaborators}.

(** What [initiate_model_trainer] raises is either the wrapping of an
    instance of [Exception] that left the [try] block, or, unwrapped, an
    exception outside [Exception] (an interrupt, an exit) that a
    collaborator raised at a call site of the pipeline. *)
Theorem initiate_model_trainer_raises_wrapped_or_uncaught
    (st st' : state) (x : exn) :
  initiate_model_trainer st = (Raise x, st') ->
  (exists e,
     x = NetworkSecurityException e sys
     /\ is_Exception e = true
     /\ initiate_model_trainer_body st = (Raise e, st'))
  \/ (is_Exception x = false
      /\ initiate_model_trainer_body st = (Raise x, st')
      /\ exists s, In s pipeline /\ fault s = Some x).
Proof.
  unfold initiate_model_trainer, try_except_Exception.
  destruct (initiate_model_trainer_body st) as [[a|e] st0] eqn:Hbody; [discriminate |].
  destruct (is_Exception e) eqn:He; intros [= <- <-].
  - left. eauto.
  - right. split; [assumption |]. split; [reflexivity |].
    destruct (initiate_model_trainer_body_visits _ _ _ Hbody)
      as (passed & _ & Hsub & [(s & Hs & Hf) | (cls & msg & _ & Hown)]).
    + exists s. split; [| assumption].
      apply list_elem_of_In. eapply elem_of_sublist; [| exact Hsub].
      now apply list_elem_of_In.
    + congruence.
Qed.

(** An array without columns has no last column: when either loaded array
    has none, [initiate_model_trainer] raises the wrapped [IndexError]
    straight after the two loads, and [train_model] is not entered. *)
Theorem initiate_model_trainer_without_columns
    (self : ModelTrainer) (w : world) (train_arr test_arr : ndarray) :
  fault at_load_train = None ->
  fault at_load_test = None ->
  files w !! transformed_train_file_path (data_transformation_artifact self)
    = Some (ONdarray train_arr) ->
  files w !! transformed_test_file_path (data_transformation_artifact self)
    = Some (ONdarray test_arr) ->
  ncols train_arr = 0%nat \/ ncols test_arr = 0%nat ->
  initiate_model_trainer (self, w) =
    (Raise (NetworkSecurityException
              (PyErr IndexError "index -1 is out of bounds for axis 1 with size 0") sys),
     (self, enter at_load_test (enter at_load_train w))).
Proof.
  intros Hf1 Hf2 Htrain Htest Hnone.
  unfold initiate_model_trainer, try_except_Exception, initiate_model_trainer_body.
  unfold bind at 1. unfold get_self at 1. cbn [fst].
  unfold bind at 1. unfold external at 1. rewrite Hf1.
  unfold load_numpy_array_data at 1. cbn [files enter]. rewrite Htrain.
  unfold bind at 1. unfold external at 1. rewrite Hf2.
  unfold load_numpy_array_data at 1. cbn [files enter]. rewrite Htest.
  unfold bind at 1. unfold pure at 1. unfold column_last at 1.
  destruct (Nat.eqb_spec (ncols train_arr) 0) as [Hz1 | Hnz1]; [reflexivity |].
  unfold bind at 1. unfold pure at 1. unfold column_last at 1.
  destruct (Nat.eqb_spec (ncols test_arr) 0) as [Hz2 | Hnz2]; [reflexivity |].
  lia.
Qed.

(** A trainer fresh from [__init__] has no [best_model_name]: on it
    [track_mlflow] never returns and never opens a run, and when its first
    three calls go through it raises [AttributeError]. *)
Theorem track_mlflow_needs_train_model
    (config : ModelTrainerConfig) (artifact : DataTransformationArtifact) (w0 : world)
    best_model train_metrics test_metrics (w : world) :
  exists self,
    ModelTrainer_init config artifact w0 = (Ok self, w0)
    /\ model_trainer_config self = config
    /\ data_transformation_artifact self = artifact
    /\ exists e w' events,
         track_mlflow best_model train_metrics test_metrics (self, w) = (Raise e, (self, w'))
         /\ tracking w' = tracking w ++ events
         /\ List.filter is_run_start events = []
         /\ (unfaulted [at_set_registry_uri; at_get_tracking_uri; at_urlparse] ->
             e = PyErr AttributeError
                   "'ModelTrainer' object has no attribute 'best_model_name'").
Proof.
  eexists. split; [reflexivity |]. split; [reflexivity |]. split; [reflexivity |].
  unfold track_mlflow, mlflow_call, bind, external, in_world, getenv, get_best_model_name, ret.
  cbn [fst snd best_model_name].
  destruct (fault at_set_registry_uri) as [e1|] eqn:Hf1.
  { exists e1. eexists. exists []. split; [reflexivity |].
    split; [cbn; now rewrite app_nil_r |]. split; [reflexivity |].
    intros Hsites. apply Forall_cons in Hsites as (Hs & _). congruence. }
  cbn [fst snd best_model_name].
  destruct (fault at_get_tracking_uri) as [e2|] eqn:Hf2.
  { exists e2. eexists. eexists. split; [reflexivity |].
    split; [cbn; reflexivity |]. split; [reflexivity |].
    intros Hsites. apply Forall_cons in Hsites as (_ & Hsites).
    apply Forall_cons in Hsites as (Hs & _). congruence. }
  cbn [fst snd best_model_name].
  destruct (fault at_urlparse) as [e3|] eqn:Hf3.
  { exists e3. eexists. eexists. split; [reflexivity |].
    split; [cbn; reflexivity |]. split; [reflexivity |].
    intros Hsites. apply Forall_cons in Hsites as (_ & Hsites).
    apply Forall_cons in Hsites as (_ & Hsites).
    apply Forall_cons in Hsites as (Hs & _). congruence. }
  cbn [fst snd best_model_name].
  eexists. eexists. eexists. split; [reflexivity |].
  split; [cbn; reflexivity |]. split; reflexivity.
Qed.

(** [train_model] assigns one attribute of the trainer and nothing else:
    whatever the outcome, the trainer is as before, or as before with
    [best_model_name] set to the name of one of the five candidates. *)
Theorem train_model_assigns_best_model_name_only
    X_train y_train X_test y_test (self self' : ModelTrainer) (w w' : world)
    (r : result ModelTrainerArtifact) :
  train_model X_train y_train X_test y_test (self, w) = (r, (self', w')) ->
  self' = self
  \/ exists name, In name (dict_keys models) /\ self' = named self name.
Proof.
  intros Hrun. destruct (fault at_evaluate_models) as [e|] eqn:Hfault.
  - left. unfold train_model, train_model_with in Hrun.
    unfold bind at 1 in Hrun. unfold external at 1 in Hrun. rewrite Hfault in Hrun.
    now injection Hrun as _ <- _.
  - right.
    destruct (evaluate_models_returns X_train y_train X_test y_test)
      as (fitted & report & Heval).
    destruct (evaluate_models_keys _ _ _ _ _ _ _ _ Heval) as (_ & Hkeys).
    destruct (select_best_spec report) as (score & name & i & Hsel & Hi & _).
    { intros ->. discriminate Hkeys. }
    exists name. split.
    + rewrite <- Hkeys. eapply nth_error_In. exact Hi.
    + exact (train_model_names_the_selected _ _ _ _ _ _ _ _ _ _ _ _ _
               Hrun Hfault Heval Hsel).
Qed.

End Outcomes.

(** ** How far the two serializations get *)

Section Writes.
Context `{Collaborators}.

(** Serializations complete in order.  Every run of [train_model] ends in
    one of three ways: no call of the serializer has completed and the run
    raises (so it is when fitting, scoring or tracking raises); the
    bundle's serialization has completed, the bare model's has raised, and
    that exception is raised; or both have completed, in this order, and
    the artifact is returned.  [track_mlflow] never calls the serializer. *)
Theorem train_model_serializes_in_order
    X_train y_train X_test y_test (self self' : ModelTrainer) (w w' : world)
    (r : result ModelTrainerArtifact) :
  train_model X_train y_train X_test y_test (self, w) = (r, (self', w')) ->
  serialization_outcome (config_trained_model_file_path (model_trainer_config self))
    (serialized w) (serialized w') r.
Proof.
  revert self w r self' w'.
  change (serializes_in_order (train_model X_train y_train X_test y_test)).
  unfold train_model, train_model_with.
  repeat first
    [ apply persist_and_package_serializes_in_order
    | apply serializes_in_order_after;
      [ first
          [ apply track_mlflow_serializes_nothing
          | apply sn_pure
          | apply sn_set_best_model_name
          | apply sn_external; intros w r w' [= <- <-]; reflexivity ]
      | intros ? ]
    | match goal with
      | |- serializes_in_order (match ?p with _ => _ end) => destruct p
      end ].
Qed.

(** A run of [train_model] that returns has asked [os.makedirs] for the
    directory of the configured path, which is not the empty path: that
    directory is there afterwards, whether or not it was there before, and
    so is every directory that was there. *)
Theorem train_model_makes_the_output_directory
    X_train y_train X_test y_test (self self' : ModelTrainer) (w w' : world)
    (art : ModelTrainerArtifact) :
  train_model X_train y_train X_test y_test (self, w) = (Ok art, (self', w')) ->
  let model_dir_path :=
    os_path_dirname (config_trained_model_file_path (model_trainer_config self)) in
  model_dir_path <> ""
  /\ model_dir_path ∈ directories w'
  /\ directories w ⊆ directories w'.
Proof.
  intros Hrun model_dir_path. unfold train_model in Hrun.
  apply train_model_with_Ok_inv in Hrun
    as (fitted & report & score & name & best_model & _ & _ & _ & _
        & [self1 w1] & Htrack & Hpersist).
  destruct (track_mlflow_keeps _ _ _ _ _ _ _ _ Htrack) as (-> & _ & _ & _ & Hdirs).
  destruct (persist_and_package_serializes _ _ _ _ _ _ _ Hpersist)
    as (preprocessor & w2 & [= -> ->] & _ & _ & _ & Hmade & Hdir & _).
  cbn [named model_trainer_config] in Hmade, Hdir. fold model_dir_path in Hmade, Hdir.
  rewrite Hdirs in Hmade. cbn [before_tracking enter directories] in Hmade.
  split; [exact Hdir |]. rewrite Hmade. split.
  - apply elem_of_union_l. now apply elem_of_singleton.
  - apply union_subseteq_r.
Qed.

End Writes.

(** ** What reaches the tracking service *)

Section Sent.
Context `{Collaborators}.

Lemma sends_bind (P : mlflow_event -> Prop) {A B} (m : M state A) (k : A -> M state B) :
  sends P m -> (forall a, sends P (k a)) -> sends P (bind m k).
Proof.
  intros Hm Hk self w r self' w'. unfold bind.
  destruct (m (self, w)) as [[a|e] [self1 w1]] eqn:Hrun.
  - intros Hrest. destruct (Hm _ _ _ _ _ Hrun) as (ev1 & Ht1 & Hp1).
    destruct (Hk a _ _ _ _ _ Hrest) as (ev2 & Ht2 & Hp2).
    exists (ev1 ++ ev2). split; [now rewrite Ht2, Ht1, app_assoc | now apply Forall_app].
  - intros [= <- <- <-]. exact (Hm _ _ _ _ _ Hrun).
Qed.

Lemma sends_external_quiet (P : mlflow_event -> Prop) {A} (s : site) (work : M world A) :
  (forall w r w', work w = (r, w') -> tracking w' = tracking w) ->
  sends P (external s work).
Proof.
  intros Hwork self w r self' w'. unfold external. destruct (fault s).
  - intros [= <- <- <-]. exists []. split; [cbn; now rewrite app_nil_r | constructor].
  - destruct (work (enter s w)) as [r1 w1] eqn:Hrun. intros [= <- <- <-].
    exists []. split; [| constructor].
    rewrite (Hwork _ _ _ Hrun). cbn. now rewrite app_nil_r.
Qed.

Lemma sends_mlflow_call (P : mlflow_event -> Prop) (s : site) (ev : mlflow_event) :
  P ev -> sends P (mlflow_call s ev).
Proof.
  intros Hev self w r self' w'. unfold mlflow_call, external. destruct (fault s).
  - intros [= <- <- <-]. exists []. split; [cbn; now rewrite app_nil_r | constructor].
  - intros [= <- <- <-]. exists [ev]. split; [reflexivity | now repeat constructor].
Qed.

Lemma sends_get_best_model_name (P : mlflow_event -> Prop) : sends P get_best_model_name.
Proof.
  intros self w r self' w'. unfold get_best_model_name. cbn.
  destruct (best_model_name self); intros [= <- <- <-];
    (exists []; split; [now rewrite app_nil_r | constructor]).
Qed.

Lemma sends_weaken (P Q : mlflow_event -> Prop) {A} (m : M state A) :
  (forall ev, P ev -> Q ev) -> sends P m -> sends Q m.
Proof.
  intros Hpq Hm self w r self' w' Hrun.
  destruct (Hm _ _ _ _ _ Hrun) as (events & Ht & Hp).
  exists events. split; [assumption |]. eapply Forall_impl; eauto.
Qed.

Lemma filter_none (f : mlflow_event -> bool) (events : list mlflow_event) :
  Forall (fun ev => f ev = false) events -> List.filter f events = [].
Proof.
  induction 1 as [|ev events Hev _ IH]; [reflexivity |]. cbn. now rewrite Hev.
Qed.

(** The [with] statement brackets its block: no event at all when
    [start_run] raises; otherwise the start of the run, what the block
    sends, and the end of the run, finished exactly when the whole
    statement returns. *)
Lemma with_start_run_brackets (run_name : string) (body : M state unit) :
  sends inside_a_run body ->
  fault at_end_run = None ->
  forall self w r self' w',
    with_start_run run_name body (self, w) = (r, (self', w')) ->
    exists events,
      tracking w' = tracking w ++ events
      /\ ((events = [] /\ exists e, r = Raise e)
          \/ exists inner status,
               events = StartRun run_name :: inner ++ [EndRun status]
               /\ Forall inside_a_run inner
               /\ (status = FINISHED <-> exists u, r = Ok u)).
Proof.
  intros Hbody Hend self w r self' w'.
  unfold with_start_run. unfold bind at 1. unfold mlflow_call at 1. unfold external at 1.
  destruct (fault at_start_run) as [e|].
  { intros [= <- <- <-]. exists []. split; [cbn; now rewrite app_nil_r |]. left. eauto. }
  destruct (body _) as [[u|e] [self1 w1]] eqn:Hrun;
    destruct (Hbody _ _ _ _ _ Hrun) as (inner & Ht & Hinner);
    unfold mlflow_call, external; rewrite Hend; intros [= <- <- <-].
  - exists (StartRun run_name :: inner ++ [EndRun FINISHED]). split.
    + cbn. rewrite Ht. cbn. now rewrite <- !app_assoc.
    + right. exists inner, FINISHED. split; [reflexivity |]. split; [assumption |].
      split; eauto.
  - exists (StartRun run_name :: inner ++ [EndRun FAILED]). split.
    + cbn. rewrite Ht. cbn. now rewrite <- !app_assoc.
    + right. exists inner, FAILED. split; [reflexivity |]. split; [assumption |].
      split; [discriminate | intros (u & Hu); discriminate].
Qed.

Lemma sends_with_start_run (P : mlflow_event -> Prop) (run_name : string)
      (body : M state unit) :
  P (StartRun run_name) -> (forall status, P (EndRun status)) ->
  sends P body -> sends P (with_start_run run_name body).
Proof.
  intros Hstart Hend Hbody. unfold with_start_run.
  apply sends_bind; [now apply sends_mlflow_call |]. intros _ self w r self' w'.
  destruct (body (self, w)) as [[u|e] [self1 w1]] eqn:Hrun;
    destruct (Hbody _ _ _ _ _ Hrun) as (ev1 & Ht1 & Hp1).
  - intros Hlast.
    destruct (sends_mlflow_call P at_end_run (EndRun FINISHED) (Hend _) _ _ _ _ _ Hlast)
      as (ev2 & Ht2 & Hp2).
    exists (ev1 ++ ev2). split; [now rewrite Ht2, Ht1, app_assoc | now apply Forall_app].
  - destruct (mlflow_call at_end_run (EndRun FAILED) (self1, w1))
      as [[u|e'] [self2 w2]] eqn:Hlast;
      intros [= <- <- <-];
      destruct (sends_mlflow_call P at_end_run (EndRun FAILED) (Hend _) _ _ _ _ _ Hlast)
        as (ev2 & Ht2 & Hp2);
      (exists (ev1 ++ ev2); split;
       [now rewrite Ht2, Ht1, app_assoc | now apply Forall_app]).
Qed.

Ltac sends_step side :=
  repeat first
    [ apply sends_get_best_model_name
    | apply sends_mlflow_call; side
    | apply sends_bind; [| intros ?]
    | match goal with
      | |- sends _ (if ?b then _ else _) => destruct b
      end ].

(** A run that [track_mlflow] has started is ended when the block is left,
    also when the block raises: unless ending the run itself fails,
    [track_mlflow] has either opened no run and raised, or opened one run
    and ended that run once, as finished exactly when it returns. *)
Theorem track_mlflow_ends_the_run_it_starts
    best_model train_metrics test_metrics (self self' : ModelTrainer) (w w' : world)
    (r : result unit) :
  track_mlflow best_model train_metrics test_metrics (self, w) = (r, (self', w')) ->
  fault at_end_run = None ->
  exists events,
    tracking w' = tracking w ++ events
    /\ ((List.filter is_run_start events = []
         /\ List.filter is_run_end events = []
         /\ exists e, r = Raise e)
        \/ exists run_name status,
             List.filter is_run_start events = [StartRun run_name]
             /\ List.filter is_run_end events = [EndRun status]
             /\ (status = FINISHED <-> exists u, r = Ok u)).
Proof.
  intros Hrun Hend. unfold track_mlflow in Hrun.
  unfold bind at 1 in Hrun. unfold in_world at 1, getenv at 1 in Hrun.
  unfold bind at 1 in Hrun. unfold mlflow_call at 1, external at 1 in Hrun.
  destruct (fault at_set_registry_uri) as [e|].
  { injection Hrun as <- <- <-. exists []. split; [cbn; now rewrite app_nil_r |].
    left. repeat split. eauto. }
  unfold bind at 1 in Hrun. unfold external at 1 in Hrun.
  destruct (fault at_get_tracking_uri) as [e|].
  { injection Hrun as <- <- <-. eexists. split; [cbn; reflexivity |].
    left. repeat split. eauto. }
  unfold bind at 1 in Hrun. unfold external at 1, ret at 1 in Hrun.
  destruct (fault at_urlparse) as [e|].
  { injection Hrun as <- <- <-. eexists. split; [cbn; reflexivity |].
    left. repeat split. eauto. }
  unfold bind at 1 in Hrun. unfold get_best_model_name at 1 in Hrun. cbn [fst] in Hrun.
  destruct (best_model_name self) as [name|].
  2:{ injection Hrun as <- <- <-. eexists. split; [cbn; reflexivity |].
      left. repeat split. eauto. }
  match type of Hrun with
  | with_start_run _ ?body _ = _ => assert (Hbody : sends inside_a_run body)
  end.
  { sends_step ltac:(split; reflexivity). }
  destruct (with_start_run_brackets _ _ Hbody Hend _ _ _ _ _ Hrun)
    as (events & Ht & [(-> & Hr) | (inner & status & -> & Hinner & Hstatus)]).
  - eexists. split; [rewrite Ht; cbn; rewrite app_nil_r; reflexivity |].
    left. repeat split. exact Hr.
  - exists (SetRegistryUri (environ w !! MLFLOW_TRACKING_URI)
            :: StartRun (name +:+ "_experiment") :: inner ++ [EndRun status]).
    split; [rewrite Ht; cbn; now rewrite <- app_assoc |].
    right. exists (name +:+ "_experiment"), status.
    cbn [List.filter is_run_start is_run_end]. rewrite !List.filter_app.
    rewrite (filter_none is_run_start inner), (filter_none is_run_end inner).
    + repeat split; try reflexivity; apply Hstatus.
    + eapply Forall_impl; [exact Hinner |]. now intros ev (_ & He).
    + eapply Forall_impl; [exact Hinner |]. now intros ev (Hs & _).
Qed.

(** The registry URI handed to the tracking client is the credential the
    import has checked: after a successful import, and as long as the
    environment is as the import left it, [track_mlflow] first sends
    [set_registry_uri] with the tracking URI, which is set and not empty. *)
Theorem track_mlflow_registers_the_imported_uri
    best_model train_metrics test_metrics (self self' : ModelTrainer)
    (w0 w1 w w' : world) (r : result unit) :
  module_load w0 = (Ok tt, w1) ->
  environ w = environ w1 ->
  fault at_set_registry_uri = None ->
  track_mlflow best_model train_metrics test_metrics (self, w) = (r, (self', w')) ->
  exists uri later,
    load_dotenv (environ w0) !! MLFLOW_TRACKING_URI = Some uri
    /\ uri <> ""
    /\ tracking w' = tracking w ++ SetRegistryUri (Some uri) :: later.
Proof.
  intros Hload Henv Hfault Hrun.
  pose proof (module_load_keeps_lookups _ _ Hload) as Hsame.
  pose proof (module_load_cases w0) as Hcases. cbn zeta in Hcases.
  rewrite Hload in Hcases.
  change (environ (set_environ load_dotenv w0)) with (load_dotenv (environ w0)) in Hcases.
  destruct (forallb _ credential_names) eqn:Hall; [| discriminate].
  pose proof (proj1 (credentials_checked _) Hall) as Husable.
  destruct (Husable MLFLOW_TRACKING_URI) as (uri & Huri & Hne); [cbn; auto |].
  exists uri.
  unfold track_mlflow in Hrun.
  unfold bind at 1 in Hrun. unfold in_world at 1, getenv at 1 in Hrun.
  rewrite Henv, Hsame, Huri in Hrun.
  unfold bind at 1 in Hrun. unfold mlflow_call at 1, external at 1 in Hrun.
  rewrite Hfault in Hrun.
  match type of Hrun with
  | ?rest _ = _ => assert (Hrest : sends (fun _ => True) rest)
  end.
  { repeat first
      [ apply sends_get_best_model_name
      | apply sends_mlflow_call; exact I
      | apply sends_external_quiet; intros w2 r2 w3 [= <- <-]; reflexivity
      | apply sends_with_start_run; [exact I | intros ?; exact I |]
      | apply sends_bind; [| intros ?]
      | match goal with
        | |- sends _ (if ?b then _ else _) => destruct b
        end ]. }
  destruct (Hrest _ _ _ _ _ Hrun) as (later & Hlater & _).
  exists later. split; [exact Huri |]. split; [assumption |].
  rewrite Hlater. cbn. now rewrite <- app_assoc.
Qed.

(** What is tracked is what is returned and persisted: in a run of
    [train_model] that returns, the tracking run is named after the
    trainer's [best_model_name], the six metrics logged are those of the two
    bundles in the artifact, and the model logged is the model serialized to
    [final_model/model.pkl]. *)
Theorem train_model_tracks_what_it_returns
    X_train y_train X_test y_test (self self' : ModelTrainer) (w w' : world)
    (art : ModelTrainerArtifact) :
  train_model X_train y_train X_test y_test (self, w) = (Ok art, (self', w')) ->
  exists name best_model registered events,
    best_model_name self' = Some name
    /\ tracking w' = tracking w ++ events
    /\ List.filter is_run_start events = [StartRun (name +:+ "_experiment")]
    /\ List.filter is_metric events =
         [ LogMetric "train_f1_score" (f1_score (train_metric_artifact art));
           LogMetric "train_precision" (precision_score (train_metric_artifact art));
           LogMetric "train_recall" (recall_score (train_metric_artifact art));
           LogMetric "test_f1_score" (f1_score (test_metric_artifact art));
           LogMetric "test_precision" (precision_score (test_metric_artifact art));
           LogMetric "test_recall" (recall_score (test_metric_artifact art)) ]
    /\ List.filter is_model events = [LogModel best_model "model" registered]
    /\ files w' !! final_model_path = Some (OEstimator best_model).
Proof.
  intros Hrun. unfold train_model in Hrun.
  apply train_model_with_Ok_inv in Hrun
    as (fitted & report & score & name & best_model & _ & _ & _ & _
        & st_tracked & Htrack & Hpersist).
  apply track_mlflow_Ok_inv in Htrack
    as (name' & w1 & Hname & _ & -> & _ & Hsent & _).
  cbn [named best_model_name] in Hname. injection Hname as <-.
  apply persist_and_package_Ok_inv in Hpersist
    as (preprocessor & w2 & _ & _ & _ & [= -> ->] & -> & Hfiles & _ & Htracking & _).
  exists name, best_model. eexists. eexists.
  split; [reflexivity |]. split; [rewrite Htracking; exact Hsent |].
  split; [reflexivity |]. split; [reflexivity |]. split; [reflexivity |].
  rewrite Hfiles. apply lookup_insert_eq.
Qed.

End Sent.

(** ** The further properties at work on concrete runs *)

Section MoreRuns.
Import Scenario Edge.

Lemma module_load_keeps_lookups_witness :
  let w' := snd (@module_load remote world0) in
  @module_load remote world0 = (Ok tt, w')
  /\ environ w' = environ world0.
Proof.
  intros w'.
  assert (Hrun : @module_load remote world0 = (Ok tt, w')) by (vm_compute; reflexivity).
  split; [exact Hrun |].
  exact (@module_load_keeps_lookups remote world0 w' Hrun).
Defined.

Lemma select_best_keeps_earlier_on_tie_witness :
  select_best report = Ok (3 # 4, "b")
  /\ select_best (report ++ [("d", 3 # 4)]) = Ok (3 # 4, "b").
Proof.
  assert (Hsel : select_best report = Ok (3 # 4, "b")) by reflexivity.
  split; [exact Hsel |].
  apply (select_best_keeps_earlier_on_tie report (3 # 4) "b" "d" (3 # 4) Hsel).
  apply Qle_refl.
Defined.

Lemma select_best_takes_strictly_better_witness :
  (forall n s, In (n, s) report -> Qlt s (1 # 1))
  /\ select_best (report ++ [("d", 1 # 1)]) = Ok (1 # 1, "d").
Proof.
  assert (Hlow : forall n s, In (n, s) report -> Qlt s (1 # 1)).
  { intros n s [[= <- <-] | [[= <- <-] | [[= <- <-] | []]]]; reflexivity. }
  split; [exact Hlow |].
  exact (select_best_takes_strictly_better report "d" (1 # 1) Hlow).
Defined.

Lemma initiate_model_trainer_raises_wrapped_or_uncaught_witness :
  let run := @initiate_model_trainer interrupted (trainer, world0) in
  run = (Raise (PyErr KeyboardInterrupt ""), (fst (snd run), snd (snd run)))
  /\ ((exists e,
         PyErr KeyboardInterrupt "" = NetworkSecurityException e sys
         /\ is_Exception e = true
         /\ @initiate_model_trainer_body interrupted (trainer, world0)
            = (Raise e, (fst (snd run), snd (snd run))))
      \/ (is_Exception (PyErr KeyboardInterrupt "") = false
          /\ @initiate_model_trainer_body interrupted (trainer, world0)
             = (Raise (PyErr KeyboardInterrupt ""), (fst (snd run), snd (snd run)))
          /\ exists s, In s pipeline /\ @fault interrupted s = Some (PyErr KeyboardInterrupt ""))).
Proof.
  intros run.
  assert (Hrun : run = (Raise (PyErr KeyboardInterrupt ""), (fst (snd run), snd (snd run))))
    by (vm_compute; reflexivity).
  split; [exact Hrun |].
  exact (@initiate_model_trainer_raises_wrapped_or_uncaught interrupted
           (trainer, world0) _ _ Hrun).
Defined.

Lemma initiate_model_trainer_without_columns_witness :
  files world_no_columns !! "train.npy" = Some (ONdarray no_columns)
  /\ @initiate_model_trainer remote (trainer, world_no_columns) =
       (Raise (NetworkSecurityException
                 (PyErr IndexError "index -1 is out of bounds for axis 1 with size 0") sys),
        (trainer, enter at_load_test (enter at_load_train world_no_columns))).
Proof.
  assert (Htrain : files world_no_columns !! "train.npy" = Some (ONdarray no_columns))
    by (vm_compute; reflexivity).
  split; [exact Htrain |].
  apply (@initiate_model_trainer_without_columns remote trainer world_no_columns
           no_columns table);
    [ reflexivity | reflexivity | exact Htrain | vm_compute; reflexivity | now left ].
Defined.

Lemma train_model_assigns_best_model_name_only_witness :
  let run := @train_model flaky X y X y (trainer, world0) in
  fst (snd run) = trainer
  \/ exists name, In name (dict_keys models) /\ fst (snd run) = named trainer name.
Proof.
  intros run.
  apply (@train_model_assigns_best_model_name_only flaky X y X y
           trainer (fst (snd run)) world0 (snd (snd run)) (fst run)).
  subst run. now destruct (@train_model flaky X y X y (trainer, world0)) as [r [s w]].
Defined.

Lemma train_model_serializes_in_order_witness :
  let run := @train_model full_disk X y X y (trainer, world0) in
  @serialization_outcome full_disk _ "artifacts/model.pkl"
    (serialized world0) (serialized (snd (snd run))) (fst run).
Proof.
  intros run.
  apply (@train_model_serializes_in_order full_disk X y X y
           trainer (fst (snd run)) world0 (snd (snd run)) (fst run)).
  subst run. now destruct (@train_model full_disk X y X y (trainer, world0)) as [r [s w]].
Defined.

(** With the disk full at the second serialization, the run is of the
    second kind: the bundle's serialization has completed, alone, and no
    artifact comes back. *)
Example bundle_serialized_alone_when_the_disk_is_full :
  let run := @train_model full_disk X y X y (trainer, world0) in
  fst run = Raise (PyErr (OtherException "OSError") "No space left on device")
  /\ exists preprocessor best_model,
       serialized (snd (snd run))
       = [("artifacts/model.pkl", NetworkModel preprocessor best_model)].
Proof.
  intros run. split; [vm_compute; reflexivity |].
  do 2 eexists. vm_compute. reflexivity.
Qed.

Lemma track_mlflow_ends_the_run_it_starts_witness :
  let run := @track_mlflow flaky (fitted (new_estimator DecisionTreeClassifier []))
               metrics metrics (trainer_named, world0) in
  @fault flaky at_end_run = None
  /\ exists events,
       tracking (snd (snd run)) = tracking world0 ++ events
       /\ ((List.filter is_run_start events = []
            /\ List.filter is_run_end events = []
            /\ exists e, fst run = Raise e)
           \/ exists run_name status,
                List.filter is_run_start events = [StartRun run_name]
                /\ List.filter is_run_end events = [EndRun status]
                /\ (status = FINISHED <-> exists u, fst run = Ok u)).
Proof.
  intros run. split; [reflexivity |].
  apply (@track_mlflow_ends_the_run_it_starts flaky
           (fitted (new_estimator DecisionTreeClassifier [])) metrics metrics
           trainer_named (fst (snd run)) world0 (snd (snd run)) (fst run));
    [| reflexivity].
  subst run.
  now destruct (@track_mlflow flaky (fitted (new_estimator DecisionTreeClassifier []))
                  metrics metrics (trainer_named, world0)) as [r [s w]].
Defined.

Lemma track_mlflow_registers_the_imported_uri_witness :
  let imported := snd (@module_load remote world0) in
  let run := @track_mlflow remote (fitted (new_estimator DecisionTreeClassifier []))
               metrics metrics (trainer_named, imported) in
  @module_load remote world0 = (Ok tt, imported)
  /\ exists uri later,
       environ world0 !! MLFLOW_TRACKING_URI = Some uri
       /\ uri <> ""
       /\ tracking (snd (snd run)) = tracking imported ++ SetRegistryUri (Some uri) :: later.
Proof.
  intros imported run.
  assert (Hload : @module_load remote world0 = (Ok tt, imported))
    by (vm_compute; reflexivity).
  split; [exact Hload |].
  apply (@track_mlflow_registers_the_imported_uri remote
           (fitted (new_estimator DecisionTreeClassifier [])) metrics metrics
           trainer_named (fst (snd run)) world0 imported imported (snd (snd run)) (fst run)
           Hload eq_refl eq_refl).
  subst run.
  now destruct (@track_mlflow remote (fitted (new_estimator DecisionTreeClassifier []))
                  metrics metrics (trainer_named, imported)) as [r [s w]].
Defined.

Lemma train_model_tracks_what_it_returns_witness :
  let st' := snd (@train_model remote X y X y (trainer, world0)) in
  exists art,
    @train_model remote X y X y (trainer, world0) = (Ok art, (fst st', snd st'))
    /\ exists name best_model registered events,
         best_model_name (fst st') = Some name
         /\ tracking (snd st') = tracking world0 ++ events
         /\ List.filter is_run_start events = [StartRun (name +:+ "_experiment")]
         /\ List.filter is_metric events =
              [ LogMetric "train_f1_score" (f1_score (train_metric_artifact art));
                LogMetric "train_precision" (precision_score (train_metric_artifact art));
                LogMetric "train_recall" (recall_score (train_metric_artifact art));
                LogMetric "test_f1_score" (f1_score (test_metric_artifact art));
                LogMetric "test_precision" (precision_score (test_metric_artifact art));
                LogMetric "test_recall" (recall_score (test_metric_artifact art)) ]
         /\ List.filter is_model events = [LogModel best_model "model" registered]
         /\ files (snd st') !! final_model_path = Some (OEstimator best_model).
Proof.
  intros st'.
  assert (Hrun : exists art,
             @train_model remote X y X y (trainer, world0) = (Ok art, (fst st', snd st')))
    by (eexists; vm_compute; reflexivity).
  destruct Hrun as (art & Hrun). exists art. split; [exact Hrun |].
  exact (@train_model_tracks_what_it_returns remote X y X y _ _ _ _ art Hrun).
Defined.

Lemma train_model_makes_the_output_directory_witness :
  let st' := snd (@train_model remote X y X y (trainer, world0)) in
  exists art,
    @train_model remote X y X y (trainer, world0) = (Ok art, (fst st', snd st'))
    /\ "artifacts" ∈ directories (snd st')
    /\ directories world0 ⊆ directories (snd st').
Proof.
  intros st'.
  assert (Hrun : exists art,
             @train_model remote X y X y (trainer, world0) = (Ok art, (fst st', snd st')))
    by (eexists; vm_compute; reflexivity).
  destruct Hrun as (art & Hrun). exists art. split; [exact Hrun |].
  exact (proj2 (@train_model_makes_the_output_directory remote X y X y
                  _ _ _ _ art Hrun)).
Defined.

End MoreRuns.
